(** * Covid-Tracker: time-series alignment and trend forecasting

    A shallow embedding of the two data-processing functions of
    [src/App.js], [processHistoricalData] (the series aligner) and
    [forecastData] (the least-squares forecaster), of what the
    application feeds them from and does with their results (the loader
    [fetchDataForCountry], the data of the comparison chart and of the
    forecast chart, the labels of the date axis), together with the parts
    of the JavaScript run-time they rest on:

    - Numbers are IEEE 754 binary64 values ([spec_float] of the standard
      library, with its correctly rounded operations);
    - [Date] follows the day-number algorithms of ECMA-262 (Day,
      YearFromTime, MonthFromTime, DateFromTime, MakeDay, TimeClip), the
      host's time zone being a parameter;
    - objects are association lists in the order [Object.keys] lists them;
    - an exception is a value of the [Completion] type. *)

From Stdlib Require Import ZArith List String Ascii Bool Lia.
From Stdlib Require Import Sorted Permutation SpecFloat DecimalString.
Import ListNotations.
Open Scope Z_scope.

(* ================================================================== *)
(** * Numbers *)

Module JsNumber.

(** A JavaScript Number: a binary64 floating-point value. *)
Definition number : Type := spec_float.

Definition prec : Z := 53.
Definition emax : Z := 1024.

Definition NaN : number := S754_nan.
Definition Infinity : number := S754_infinity false.
Definition zero : number := S754_zero false.

(** The Number nearest to an integer (ties to even), as a numeric
    literal or an array index denotes it. *)
Definition of_Z (z : Z) : number := binary_normalize prec emax z 0 false.

Definition add (x y : number) : number := SFadd prec emax x y.
Definition sub (x y : number) : number := SFsub prec emax x y.
Definition mul (x y : number) : number := SFmul prec emax x y.
Definition div (x y : number) : number := SFdiv prec emax x y.


Definition isFinite (x : number) : bool :=
  match x with S754_zero _ | S754_finite _ _ _ => true | _ => false end.


(** ToBoolean on a Number: [+0], [-0] and [NaN] are falsy. *)
Definition ToBoolean (x : number) : bool :=
  match x with
  | S754_zero _ | S754_nan => false
  | _ => true
  end.

(** [Math.round]: the integral Number closest to [x], a tie going
    towards +Infinity; a result of magnitude zero keeps the sign of [x].
    For a finite [x = (-1)^s * m * 2^e] with [e < 0] the integer is
    [floor (x + 1/2) = floor ((2 * (+-m) + 2^(-e)) / 2^(1 - e))]. *)
Definition Math_round (x : number) : number :=
  match x with
  | S754_finite s m e =>
      if 0 <=? e then x
      else
        let sm := if s then Z.neg m else Z.pos m in
        let r := (2 * sm + 2 ^ (- e)) / 2 ^ (1 - e) in
        if r =? 0 then S754_zero s else of_Z r
  | _ => x
  end.

(** [Math.max] of two Numbers: NaN if either is NaN, and [+0] counts as
    larger than [-0]. *)
Definition Math_max (x y : number) : number :=
  match x, y with
  | S754_nan, _ | _, S754_nan => S754_nan
  | _, _ =>
      match SFcompare x y with
      | Some Lt => y
      | Some Gt => x
      | _ => match x with S754_zero true => y | _ => x end
      end
  end.

End JsNumber.

(* ================================================================== *)
(** * Exceptions *)

Inductive Error : Type := RangeError | TypeError.

(** The outcome of a call: a value, or an exception thrown. *)
Inductive Completion (A : Type) : Type :=
| Normal (a : A)
| Throw (e : Error).
Arguments Normal {A} a.
Arguments Throw {A} e.

(* ================================================================== *)
(** * Dates *)

Module JsDate.

(** ** Day number and time within day (ECMA-262, 21.4.1) *)

Definition msPerDay : Z := 86400000.
Definition Day (t : Z) : Z := t / msPerDay.
Definition TimeWithinDay (t : Z) : Z := t mod msPerDay.

Definition DaysInYear (y : Z) : Z :=
  if negb (y mod 4 =? 0) then 365
  else if negb (y mod 100 =? 0) then 366
  else if negb (y mod 400 =? 0) then 365
  else 366.

Definition DayFromYear (y : Z) : Z :=
  365 * (y - 1970) + (y - 1969) / 4 - (y - 1901) / 100 + (y - 1601) / 400.

Definition TimeFromYear (y : Z) : Z := msPerDay * DayFromYear y.

(** The largest year whose first day is not after day [d]: an estimate
    from the mean length of a Gregorian year, off by one at most. *)
Definition YearFromDay (d : Z) : Z :=
  let y := 1970 + (d * 400) / 146097 in
  if d <? DayFromYear y then y - 1
  else if DayFromYear (y + 1) <=? d then y + 1
  else y.

Definition YearFromTime (t : Z) : Z := YearFromDay (Day t).

Definition InLeapYear (t : Z) : Z := DaysInYear (YearFromTime t) - 365.

Definition DayWithinYear (t : Z) : Z := Day t - DayFromYear (YearFromTime t).

Definition MonthFromTime (t : Z) : Z :=
  let d := DayWithinYear t in
  let l := InLeapYear t in
  if d <? 31 then 0
  else if d <? 59 + l then 1
  else if d <? 90 + l then 2
  else if d <? 120 + l then 3
  else if d <? 151 + l then 4
  else if d <? 181 + l then 5
  else if d <? 212 + l then 6
  else if d <? 243 + l then 7
  else if d <? 273 + l then 8
  else if d <? 304 + l then 9
  else if d <? 334 + l then 10
  else 11.

Definition DateFromTime (t : Z) : Z :=
  let d := DayWithinYear t in
  let l := InLeapYear t in
  match MonthFromTime t with
  | 0 => d + 1
  | 1 => d - 30
  | 2 => d - 58 - l
  | 3 => d - 89 - l
  | 4 => d - 119 - l
  | 5 => d - 150 - l
  | 6 => d - 180 - l
  | 7 => d - 211 - l
  | 8 => d - 242 - l
  | 9 => d - 272 - l
  | 10 => d - 303 - l
  | _ => d - 333 - l
  end.

Definition msPerHour : Z := 3600000.
Definition msPerMinute : Z := 60000.
Definition msPerSecond : Z := 1000.
Definition HourFromTime (t : Z) : Z := (t / msPerHour) mod 24.
Definition MinFromTime (t : Z) : Z := (t / msPerMinute) mod 60.
Definition SecFromTime (t : Z) : Z := (t / msPerSecond) mod 60.
Definition msFromTime (t : Z) : Z := t mod msPerSecond.

(** Days of year [y] that precede month [m] (0 = January). *)
Definition DaysBeforeMonth (y m : Z) : Z :=
  let l := DaysInYear y - 365 in
  match m with
  | 0 => 0
  | 1 => 31
  | 2 => 59 + l
  | 3 => 90 + l
  | 4 => 120 + l
  | 5 => 151 + l
  | 6 => 181 + l
  | 7 => 212 + l
  | 8 => 243 + l
  | 9 => 273 + l
  | 10 => 304 + l
  | _ => 334 + l
  end.

Definition DaysInMonth (y m : Z) : Z :=
  match m with
  | 1 => 28 + (DaysInYear y - 365)
  | 3 | 5 | 8 | 10 => 30
  | _ => 31
  end.

(** MakeDay: the day number of day [dt] of month [month] of [year];
    months and days outside their range carry over. *)
Definition MakeDay (year month dt : Z) : Z :=
  let ym := year + month / 12 in
  let mn := month mod 12 in
  DayFromYear ym + DaysBeforeMonth ym mn + dt - 1.

Definition MakeDate (day time : Z) : Z := day * msPerDay + time.

Definition maxTime : Z := 8640000000000000.

(** A time value is a number of milliseconds since the epoch, or NaN
    ([None]): an invalid Date. *)
Definition timevalue : Type := option Z.

Definition TimeClip (t : Z) : timevalue :=
  if Z.abs t <=? maxTime then Some t else None.

(** ** The ISO 8601 calendar-date format

    [YYYY-MM-DD], and [+YYYYYY-MM-DD] / [-YYYYYY-MM-DD] for the years
    that four digits do not hold. *)

Definition digit_char (d : Z) : ascii := ascii_of_N (Z.to_N (48 + d)).

Definition pad2 (n : Z) : list ascii :=
  [digit_char (n / 10 mod 10); digit_char (n mod 10)].
Definition pad3 (n : Z) : list ascii :=
  digit_char (n / 100 mod 10) :: pad2 n.
Definition pad4 (n : Z) : list ascii :=
  digit_char (n / 1000 mod 10) :: pad3 n.
Definition pad6 (n : Z) : list ascii :=
  digit_char (n / 100000 mod 10) :: digit_char (n / 10000 mod 10) :: pad4 n.

Definition year_chars (y : Z) : list ascii :=
  if (0 <=? y) && (y <=? 9999) then pad4 y
  else if 0 <=? y then "+"%char :: pad6 y
  else "-"%char :: pad6 (- y).

(** The date part of [toISOString]: year, month and day of [t] in UTC. *)
Definition date_chars (t : Z) : list ascii :=
  year_chars (YearFromTime t) ++ "-"%char :: pad2 (MonthFromTime t + 1)
    ++ "-"%char :: pad2 (DateFromTime t).

Definition time_chars (t : Z) : list ascii :=
  pad2 (HourFromTime t) ++ ":"%char :: pad2 (MinFromTime t)
    ++ ":"%char :: pad2 (SecFromTime t) ++ "."%char :: pad3 (msFromTime t).

Definition digit_val (c : ascii) : option Z :=
  let n := Z.of_N (N_of_ascii c) in
  if (48 <=? n) && (n <=? 57) then Some (n - 48) else None.

(** The value of a run of decimal digits; [None] if a character is not
    a digit. *)
Fixpoint digits_val (acc : Z) (cs : list ascii) : option Z :=
  match cs with
  | [] => Some acc
  | c :: cs' =>
      match digit_val c with
      | Some d => digits_val (10 * acc + d) cs'
      | None => None
      end
  end.

(** Month [mo] (1 to 12) and day [d] of year [y], if that day exists. *)
Definition civil_day (y mo d : Z) : option Z :=
  if (1 <=? mo) && (mo <=? 12) && (1 <=? d) && (d <=? DaysInMonth y (mo - 1))
  then Some (MakeDay y (mo - 1) d)
  else None.

Definition parse_fields (ys ms ds : list ascii) (neg : bool) : option Z :=
  match digits_val 0 ys, digits_val 0 ms, digits_val 0 ds with
  | Some y, Some mo, Some d =>
      if neg && (y =? 0) then None
      else
        match civil_day (if neg then - y else y) mo d with
        | Some day => Some (MakeDate day 0)
        | None => None
        end
  | _, _, _ => None
  end.

(** A year of [ydigits] digits, then [-MM-DD]. *)
Definition parse_calendar (ydigits : nat) (cs : list ascii) (neg : bool)
    : option Z :=
  match skipn ydigits cs with
  | [s1; m1; m2; s2; d1; d2] =>
      if Ascii.eqb s1 "-"%char && Ascii.eqb s2 "-"%char
      then parse_fields (firstn ydigits cs) [m1; m2] [d1; d2] neg
      else None
  | _ => None
  end.

(** The time value of a calendar-date string of the ISO format: midnight
    UTC of that day.  [None] when the string is not of this form. *)
Definition parse_iso_date (s : string) : option Z :=
  match list_ascii_of_string s with
  | c :: cs =>
      if Ascii.eqb c "+"%char then parse_calendar 6 cs false
      else if Ascii.eqb c "-"%char then parse_calendar 6 cs true
      else parse_calendar 4 (c :: cs) false
  | [] => None
  end.

(** [s.split('T')[0]]: the characters of [s] before its first [T]. *)
Fixpoint before_T (cs : list ascii) : list ascii :=
  match cs with
  | [] => []
  | c :: cs' => if Ascii.eqb c "T"%char then [] else c :: before_T cs'
  end.

Definition split_T_0 (s : string) : string :=
  string_of_list_ascii (before_T (list_ascii_of_string s)).

(** [d.toISOString()]: throws a RangeError on an invalid date. *)
Definition toISOString (tv : timevalue) : Completion string :=
  match tv with
  | Some t =>
      Normal (string_of_list_ascii
                (date_chars t ++ "T"%char :: time_chars t ++ ["Z"%char]))
  | None => Throw RangeError
  end.

(** ** Date objects of a host

    What ECMA-262 leaves to the host: the offset of local time from UTC
    ([LocalTZA t true] at the UTC time [t], [LocalTZA t false] at the
    local time [t]), and the reading of date strings that are not of the
    calendar-date format above. *)
Section Host.

Variable LocalTZA : Z -> bool -> Z.
Variable host_parse : string -> option Z.

Definition LocalTime (t : Z) : Z := t + LocalTZA t true.
Definition UTC (t : Z) : Z := t - LocalTZA t false.

Definition Date_parse (s : string) : option Z :=
  match parse_iso_date s with
  | Some t => Some t
  | None => host_parse s
  end.

(** [new Date(s)] for a string [s]. *)
Definition new_Date (s : string) : timevalue :=
  match Date_parse s with
  | Some t => TimeClip t
  | None => None
  end.

(** [d.getDate()]: the day of the month in local time; NaN ([None])
    for an invalid date. *)
Definition getDate (tv : timevalue) : option Z :=
  match tv with
  | Some t => Some (DateFromTime (LocalTime t))
  | None => None
  end.

(** [d.setDate(dt)]: the new time value of [d]. *)
Definition setDate (tv : timevalue) (dt : option Z) : timevalue :=
  match tv, dt with
  | Some t0, Some dt =>
      let t := LocalTime t0 in
      let newDate :=
        MakeDate (MakeDay (YearFromTime t) (MonthFromTime t) dt)
                 (TimeWithinDay t) in
      TimeClip (UTC newDate)
  | _, _ => None
  end.

End Host.

End JsDate.

(* ================================================================== *)
(** * Objects, arrays and sets *)

Import JsNumber JsDate.

(** An object holding Numbers: its own properties, in the order
    [Object.keys] lists them.  The keys are dates, so none of them names a
    property that objects inherit ([toString], [constructor], ...), and
    reading a key finds an own property or nothing: see [own_key]
    below. *)
Definition JsObject : Type := list (string * number).

Definition Object_keys (o : JsObject) : list string := map fst o.

(** [o[k]], for a key [k] that is an [own_key]: the value of the
    property [k] of [o], [None] (undefined) without it. *)
Fixpoint Get (o : JsObject) (k : string) : option number :=
  match o with
  | [] => None
  | (k', v) :: o' => if String.eqb k k' then Some v else Get o' k
  end.

(** The names of the properties of [Object.prototype] (ECMA-262, 20.1.3
    and B.2.2): under one of them [o[k]] finds the inherited property, a
    function or an object, when [o] has no property [k] of its own. *)
Definition Object_prototype_names : list string :=
  ["constructor"; "hasOwnProperty"; "isPrototypeOf"; "propertyIsEnumerable";
   "toLocaleString"; "toString"; "valueOf"; "__proto__";
   "__defineGetter__"; "__defineSetter__"; "__lookupGetter__";
   "__lookupSetter__"]%string.

(** A key under which an object holds what it has of its own and no
    more, as every date is: there [o[k]] is [Get o k].  What is proved of
    the values read under a key that a series may lack is proved of such
    keys. *)
Definition own_key (k : string) : Prop := ~ In k Object_prototype_names.

(** [x || {}] on an object that may be null or undefined. *)
Definition or_empty (o : option JsObject) : JsObject :=
  match o with Some x => x | None => [] end.

(** [x || d] on a property value: [d] when [x] is undefined or falsy. *)
Definition or_number (x : option number) (d : number) : number :=
  match x with
  | Some v => if ToBoolean v then v else d
  | None => d
  end.

Section Arrays.

Context {A : Type}.

(** The comparison function of a sort; [None] is a NaN result. *)
Variable comparefn : A -> A -> option Z.

(** The comparison of two elements: a NaN result counts as 0. *)
Definition SortCompare (x y : A) : Z :=
  match comparefn x y with Some v => v | None => 0 end.

(** [x] goes before the first element that does not compare below it. *)
Fixpoint sort_insert (x : A) (l : list A) : list A :=
  match l with
  | [] => [x]
  | y :: l' => if 0 <? SortCompare x y then y :: sort_insert x l' else x :: l
  end.

(** [Array.prototype.sort] with a comparison function.  The sort is
    stable, which fixes its result for a consistent comparison function;
    for any other the result is a permutation still, in an order that
    the engine chooses. *)
Fixpoint Array_sort (l : list A) : list A :=
  match l with
  | [] => []
  | x :: l' => sort_insert x (Array_sort l')
  end.

End Arrays.

(** A Set of strings, as the list of its elements in insertion order. *)
Definition Set_add (s : list string) (k : string) : list string :=
  if existsb (String.eqb k) s then s else s ++ [k].

Definition new_Set (l : list string) : list string := fold_left Set_add l [].

(* ================================================================== *)
(** * The application: [src/App.js] *)

Module AlignedRecord.
Record t : Type := mk
  { date : string; cases : number; recovered : number; vaccines : number }.
End AlignedRecord.

Module HistoryPoint.
Record t : Type := mk { date : string; cases : number }.
End HistoryPoint.

Module ForecastRecord.
Record t : Type := mk { date : string; cases : number; isForecast : bool }.
End ForecastRecord.

(** The four running sums of the regression. *)
Record Sums : Type := mkSums
  { sumX : number; sumY : number; sumXY : number; sumX2 : number }.

(** One call of the [forEach] callback, at index [i]. *)
Definition accumulate (s : Sums) (i : Z) (d : HistoryPoint.t) : Sums :=
  {| sumX := add (sumX s) (of_Z i);
     sumY := add (sumY s) (HistoryPoint.cases d);
     sumXY := add (sumXY s) (mul (of_Z i) (HistoryPoint.cases d));
     sumX2 := add (sumX2 s) (mul (of_Z i) (of_Z i)) |}.

Fixpoint forEach (l : list HistoryPoint.t) (i : Z) (s : Sums) : Sums :=
  match l with
  | [] => s
  | d :: l' => forEach l' (i + 1) (accumulate s i d)
  end.

(** [n * sumX2 - sumX * sumX] *)
Definition denominator (n sumX sumX2 : number) : number :=
  sub (mul n sumX2) (mul sumX sumX).

(** [(n * sumXY - sumX * sumY) / (n * sumX2 - sumX * sumX)] *)
Definition slope (n sumXY sumX sumY sumX2 : number) : number :=
  div (sub (mul n sumXY) (mul sumX sumY)) (denominator n sumX sumX2).

(** [(sumY - m * sumX) / n] *)
Definition intercept (n sumX sumY m : number) : number :=
  div (sub sumY (mul m sumX)) n.

(** The least-squares line through the points [(i, cases_i)]: its slope
    [m] and its intercept [b]. *)
Definition fit (historicalData : list HistoryPoint.t) : number * number :=
  let s := forEach historicalData 0 (mkSums zero zero zero zero) in
  let n := of_Z (Z.of_nat (List.length historicalData)) in
  let m := slope n (sumXY s) (sumX s) (sumY s) (sumX2 s) in
  let b := intercept n (sumX s) (sumY s) m in
  (m, b).

(** [m * (n + i - 1) + b]: the line at the [i]-th step past the history. *)
Definition trend (m b n : number) (i : Z) : number :=
  add (mul m (sub (add n (of_Z i)) (of_Z 1))) b.

(** [Math.max(0, Math.round(m * (n + i - 1) + b))] *)
Definition forecastedCases (m b n : number) (i : Z) : number :=
  Math_max zero (Math_round (trend m b n i)).

(** [for (let i = start; i <= daysToForecast; i++) forecasted.push(body i)],
    with [count] passes left to run. *)
Fixpoint for_loop {R : Type} (body : Z -> Completion R) (count : nat) (i : Z)
    (forecasted : list R) : Completion (list R) :=
  match count with
  | O => Normal forecasted
  | S count' =>
      match body i with
      | Normal r => for_loop body count' (i + 1) (forecasted ++ [r])
      | Throw e => Throw e
      end
  end.

Section App.

Variable LocalTZA : Z -> bool -> Z.
Variable host_parse : string -> option Z.

(** [(a, b) => new Date(a) - new Date(b)]; [None] is NaN. *)
Definition compareDates (a b : string) : option Z :=
  match new_Date host_parse a, new_Date host_parse b with
  | Some x, Some y => Some (x - y)
  | _, _ => None
  end.

(** [processHistoricalData(casesData, recoveredData, vaccineData)]; an
    argument that is null or undefined is [None]. *)
Definition processHistoricalData
    (casesData recoveredData vaccineData : option JsObject)
    : list AlignedRecord.t :=
  let dates :=
    new_Set
      (Array_sort compareDates
         (Object_keys (or_empty casesData)
            ++ Object_keys (or_empty recoveredData)
            ++ Object_keys (or_empty vaccineData))) in
  map (fun date =>
         {| AlignedRecord.date := date;
            AlignedRecord.cases :=
              match casesData with
              | Some o => or_number (Get o date) zero
              | None => zero
              end;
            AlignedRecord.recovered :=
              match recoveredData with
              | Some o => or_number (Get o date) zero
              | None => zero
              end;
            AlignedRecord.vaccines :=
              match vaccineData with
              | Some o => or_number (Get o date) zero
              | None => zero
              end |})
      dates.

(** The body of the forecasting loop, at counter [i]. *)
Definition forecastStep (lastDate : timevalue) (m b n : number) (i : Z)
    : Completion ForecastRecord.t :=
  let nextDate :=
    setDate LocalTZA lastDate
      (option_map (fun d => d + i) (getDate LocalTZA lastDate)) in
  match toISOString nextDate with
  | Normal iso =>
      Normal {| ForecastRecord.date := split_T_0 iso;
                ForecastRecord.cases := forecastedCases m b n i;
                ForecastRecord.isForecast := true |}
  | Throw e => Throw e
  end.

(** [forecastData(historicalData, daysToForecast)]; a call that leaves
    the horizon out passes 7. *)
Definition forecastData (historicalData : option (list HistoryPoint.t))
    (daysToForecast : Z) : Completion (list ForecastRecord.t) :=
  match historicalData with
  | None => Normal []
  | Some hd =>
      if (List.length hd <? 10)%nat then Normal []
      else
        let n := of_Z (Z.of_nat (List.length hd)) in
        let (m, b) := fit hd in
        match nth_error hd (List.length hd - 1) with
        | Some last =>
            let lastDate := new_Date host_parse (HistoryPoint.date last) in
            for_loop (forecastStep lastDate m b n)
                     (Z.to_nat daysToForecast) 1 []
        | None => Throw TypeError
        end
  end.

End App.

(* ================================================================== *)
(** * Specification vocabulary *)

(** ** Hosts *)

(** A host whose local time is always [c] milliseconds ahead of UTC. *)
Definition fixed_offset (c : Z) : Z -> bool -> Z := fun _ _ => c.

(** A host that reads no date string beyond the ISO calendar dates. *)
Definition ISO_only : string -> option Z := fun _ => None.

(** US Eastern time around March 2021: five hours behind UTC until
    14 March 2021, 07:00 UTC, when local clocks go from 02:00 to 03:00,
    and four hours behind from then on. *)
Definition us_eastern_2021 : Z -> bool -> Z :=
  fun t isUTC =>
    if isUTC
    then if t <? 1615705200000 then -18000000 else -14400000
    else if t <? 1615690800000 then -18000000 else -14400000.

(** A host whose offset from UTC stays within a day of UTC and varies by
    a day at most. *)
Definition plausible_zone (LocalTZA : Z -> bool -> Z) : Prop :=
  (forall t b, Z.abs (LocalTZA t b) <= msPerDay)
  /\ (forall t t', LocalTZA t false - LocalTZA t' false <= msPerDay).

(** ** Dates *)

(** The date of [toISOString], as [forecastData] cuts it out. *)
Definition ISO_date (t : Z) : string := string_of_list_ascii (date_chars t).

(** The time value [setDate] reaches from [t0] when asked for the local
    day of the month plus [i]. *)
Definition shifted (LocalTZA : Z -> bool -> Z) (t0 i : Z) : Z :=
  UTC LocalTZA (LocalTime LocalTZA t0 + i * msPerDay).

(** Calendar order of two date strings: both denote a date, and the
    first is not after the second. *)
Definition date_le (host_parse : string -> option Z) (a b : string) : Prop :=
  exists ta tb,
    new_Date host_parse a = Some ta /\ new_Date host_parse b = Some tb
    /\ ta <= tb.

Definition valid_date (host_parse : string -> option Z) (k : string) : Prop :=
  new_Date host_parse k <> None.

(** ** The Gregorian calendar, day by day *)

Definition is_leap_year (y : Z) : bool :=
  (y mod 4 =? 0) && (negb (y mod 100 =? 0) || (y mod 400 =? 0)).

(** The number of days of month [m] (1 = January) of year [y]. *)
Definition month_days (y m : Z) : Z :=
  match m with
  | 2 => if is_leap_year y then 29 else 28
  | 4 | 6 | 9 | 11 => 30
  | _ => 31
  end.

(** A calendar date: year, month (1 to 12), day of the month. *)
Definition civil : Type := (Z * Z * Z)%type.

(** A calendar date that exists. *)
Definition civil_valid (c : civil) : Prop :=
  let '(y, m, d) := c in 1 <= m <= 12 /\ 1 <= d <= month_days y m.

(** The day after a calendar date. *)
Definition tomorrow (c : civil) : civil :=
  let '(y, m, d) := c in
  if d <? month_days y m then (y, m, d + 1)
  else if m <? 12 then (y, m + 1, 1)
  else (y + 1, 1, 1).

(** The calendar date of a time value, in UTC. *)
Definition civil_of_time (t : Z) : civil :=
  (YearFromTime t, MonthFromTime t + 1, DateFromTime t).

(** The ISO form of a calendar date. *)
Definition civil_string (c : civil) : string :=
  let '(y, m, d) := c in
  string_of_list_ascii
    (year_chars y ++ "-"%char :: pad2 m ++ "-"%char :: pad2 d).

(** ** Series *)

(** The keys of the three series, those of an absent one left out. *)
Definition all_keys (c r v : option JsObject) : list string :=
  Object_keys (or_empty c) ++ Object_keys (or_empty r)
    ++ Object_keys (or_empty v).

(** The value a series holds at a date, 0 when the series is absent or
    lacks the date. *)
Definition value_at (s : option JsObject) (k : string) : number :=
  match s with
  | Some o => match Get o k with Some x => x | None => zero end
  | None => zero
  end.

(** A Number other than NaN and [-0]: every count is one. *)
Definition ordinary (x : number) : bool :=
  match x with
  | S754_nan | S754_zero true => false
  | _ => true
  end.

(** A series, present or absent, whose values are all ordinary Numbers. *)
Definition metric_series (s : option JsObject) : Prop :=
  Forall (fun kv => ordinary (snd kv) = true) (or_empty s).

(** ** Forecasts *)

(** The counters of a loop [for (let i = 1; i <= h; i++)]. *)
Definition counters (h : Z) : list Z :=
  map (fun k => 1 + Z.of_nat k) (seq 0 (Z.to_nat h)).


(** The record the loop pushes at counter [i], for a last date [t0]. *)
Definition forecastRecord (LocalTZA : Z -> bool -> Z)
    (hd : list HistoryPoint.t) (t0 i : Z) : ForecastRecord.t :=
  {| ForecastRecord.date := ISO_date (shifted LocalTZA t0 i);
     ForecastRecord.cases :=
       forecastedCases (fst (fit hd)) (snd (fit hd))
                       (of_Z (Z.of_nat (List.length hd))) i;
     ForecastRecord.isForecast := true |}.


(** The sums of the indices [0 .. n-1] and of their squares, as the loop
    of [forecastData] accumulates them. *)
Fixpoint index_sums (n : nat) : number * number :=
  match n with
  | O => (zero, zero)
  | S k =>
      let (sx, sx2) := index_sums k in
      (add sx (of_Z (Z.of_nat k)),
       add sx2 (mul (of_Z (Z.of_nat k)) (of_Z (Z.of_nat k))))
  end.

(** Equality of two Numbers as values of the datatype. *)
Definition same_number (x y : number) : bool :=
  match x, y with
  | S754_zero s, S754_zero s' => Bool.eqb s s'
  | S754_infinity s, S754_infinity s' => Bool.eqb s s'
  | S754_nan, S754_nan => true
  | S754_finite s m e, S754_finite s' m' e' =>
      Bool.eqb s s' && Pos.eqb m m' && Z.eqb e e'
  | _, _ => false
  end.

(** For [n] points the denominator of the slope is the Number
    [n^2 (n^2 - 1) / 12], a positive one. *)
Definition denominator_exact (n : Z) (sx sx2 : number) : bool :=
  let d := denominator (of_Z n) sx sx2 in
  same_number d (of_Z (n * n * (n * n - 1) / 12))
  && match d with S754_finite false _ _ => true | _ => false end.

(** [denominator_exact] for [count] lengths from [n] on, ten at least,
    the sums being those of the indices below [n]. *)
Fixpoint denominators_exact (n : Z) (count : nat) (sx sx2 : number) : bool :=
  match count with
  | O => true
  | S count' =>
      ((n <? 10) || denominator_exact n sx sx2)
      && denominators_exact (n + 1) count'
           (add sx (of_Z n)) (add sx2 (mul (of_Z n) (of_Z n)))
  end.

(** ** Sample inputs *)

(** Ten daily points with [cases i = 100 + 10 * i]. *)
Definition linear_values : list number :=
  map of_Z [100; 110; 120; 130; 140; 150; 160; 170; 180; 190].

Definition history_on (dates : list string) : list HistoryPoint.t :=
  map (fun dc => HistoryPoint.mk (fst dc) (snd dc))
      (combine dates linear_values).

Definition linear_history : list HistoryPoint.t :=
  history_on ["2021-01-21"; "2021-01-22"; "2021-01-23"; "2021-01-24";
              "2021-01-25"; "2021-01-26"; "2021-01-27"; "2021-01-28";
              "2021-01-29"; "2021-01-30"]%string.


Definition history_to_13_march : list HistoryPoint.t :=
  history_on ["2021-03-04"; "2021-03-05"; "2021-03-06"; "2021-03-07";
              "2021-03-08"; "2021-03-09"; "2021-03-10"; "2021-03-11";
              "2021-03-12"; "2021-03-13"]%string.

(** The forecast of [linear_history] over three days. *)
Definition january_forecast : list ForecastRecord.t :=
  [ForecastRecord.mk "2021-01-31" (of_Z 200) true;
   ForecastRecord.mk "2021-02-01" (of_Z 210) true;
   ForecastRecord.mk "2021-02-02" (of_Z 220) true].

(** Two series that share one date; one key is of a year past 9999. *)
Definition sample_cases : JsObject :=
  [("2021-01-02"%string, of_Z 5); ("+010000-01-01"%string, of_Z 9);
   ("2021-01-01"%string, of_Z 3)].

Definition sample_vaccines : JsObject :=
  [("2021-01-03"%string, of_Z 7); ("2021-01-01"%string, of_Z 1)].

(* ================================================================== *)
(** * The application: the charts and the loader of [src/App.js] *)

(** ** The comparison chart *)

(** [o[k] = v]: a property that [o] has keeps its place among the keys,
    a new one goes last.  (The keys written here end in the name of a
    column, so none is an array index, which would be listed first.) *)
Fixpoint Put (o : JsObject) (k : string) (v : number) : JsObject :=
  match o with
  | [] => [(k, v)]
  | (k', v') :: o' =>
      if String.eqb k k' then (k', v) :: o' else (k', v') :: Put o' k v
  end.

Module ChartRow.
(** A row of the comparison chart: its property [date], and its other
    properties, the columns.  The key of a column is a country's name
    followed by [" Cases"], [" Vaccinations"] or [" Recovered"], which
    is never the key ["date"]. *)
Record t : Type := mk { date : string; columns : JsObject }.
End ChartRow.

(** The three columns of [country], written into the properties [o] in
    the order of the source: cases, vaccinations, recovered. *)
Definition set_columns (o : JsObject) (country : string)
    (d : AlignedRecord.t) : JsObject :=
  Put (Put (Put o (country ++ " Cases")%string (AlignedRecord.cases d))
           (country ++ " Vaccinations")%string (AlignedRecord.vaccines d))
      (country ++ " Recovered")%string (AlignedRecord.recovered d).

(** [{ date: d.date, [country + ' Cases']: d.cases, ... }] *)
Definition new_row (country : string) (d : AlignedRecord.t) : ChartRow.t :=
  {| ChartRow.date := AlignedRecord.date d;
     ChartRow.columns := set_columns [] country d |}.

(** [data.find(d => d.date === compD.date)] and, on the entry found, the
    three assignments; [None] when [find] returns undefined. *)
Fixpoint assign_found (data : list ChartRow.t) (compareCountry : string)
    (compD : AlignedRecord.t) : option (list ChartRow.t) :=
  match data with
  | [] => None
  | d :: data' =>
      if String.eqb (ChartRow.date d) (AlignedRecord.date compD)
      then Some ({| ChartRow.date := ChartRow.date d;
                    ChartRow.columns :=
                      set_columns (ChartRow.columns d) compareCountry compD |}
                 :: data')
      else option_map (cons d) (assign_found data' compareCountry compD)
  end.

(** The callback of [compareCountryData.historicalChartData.forEach]. *)
Definition merge_compared (compareCountry : string) (data : list ChartRow.t)
    (compD : AlignedRecord.t) : list ChartRow.t :=
  match assign_found data compareCountry compD with
  | Some data' => data'
  | None => data ++ [new_row compareCountry compD]
  end.

Section Charts.

Variable host_parse : string -> option Z.

(** [(a, b) => new Date(a.date) - new Date(b.date)] *)
Definition compareRows (a b : ChartRow.t) : option Z :=
  compareDates host_parse (ChartRow.date a) (ChartRow.date b).

(** [combinedChartData]; [countryData?.historicalChartData] and
    [compareCountryData?.historicalChartData] are [None] when the data
    is not there. *)
Definition combinedChartData
    (countryData compareCountryData : option (list AlignedRecord.t))
    (selectedCountry compareCountry : string) : list ChartRow.t :=
  match countryData with
  | None => []
  | Some historicalChartData =>
      let data := map (new_row selectedCountry) historicalChartData in
      let data :=
        match compareCountryData with
        | Some compared => fold_left (merge_compared compareCountry) compared data
        | None => data
        end in
      Array_sort compareRows data
  end.

End Charts.

(** ** The forecast chart *)

Module ChartPoint.
(** A point of the forecast chart: [{ date, cases }] from the history,
    where [isForecast] is undefined ([None]), or a record of
    [forecastData]. *)
Record t : Type := mk
  { date : string; cases : number; isForecast : option bool }.
End ChartPoint.

Definition of_history (d : HistoryPoint.t) : ChartPoint.t :=
  {| ChartPoint.date := HistoryPoint.date d;
     ChartPoint.cases := HistoryPoint.cases d;
     ChartPoint.isForecast := None |}.

Definition of_forecast (d : ForecastRecord.t) : ChartPoint.t :=
  {| ChartPoint.date := ForecastRecord.date d;
     ChartPoint.cases := ForecastRecord.cases d;
     ChartPoint.isForecast := Some (ForecastRecord.isForecast d) |}.

(** [d => ({ date: d.date, cases: d.cases })] *)
Definition historicalCases (historicalChartData : list AlignedRecord.t)
    : list HistoryPoint.t :=
  map (fun d => HistoryPoint.mk (AlignedRecord.date d) (AlignedRecord.cases d))
      historicalChartData.

(** [forecastChartData]: the history followed by a forecast of 14 days. *)
Definition forecastChartData (LocalTZA : Z -> bool -> Z)
    (host_parse : string -> option Z)
    (countryData : option (list AlignedRecord.t))
    : Completion (list ChartPoint.t) :=
  match countryData with
  | None => Normal []
  | Some historicalChartData =>
      match forecastData LocalTZA host_parse
              (Some (historicalCases historicalChartData)) 14 with
      | Normal forecastedCases =>
          Normal (map of_history (historicalCases historicalChartData)
                    ++ map of_forecast forecastedCases)
      | Throw e => Throw e
      end
  end.


(** ** The ticks of the date axis *)

(** [d.getMonth()]: the month in local time, January being 0; NaN
    ([None]) for an invalid date. *)
Definition getMonth (LocalTZA : Z -> bool -> Z) (tv : timevalue) : option Z :=
  match tv with
  | Some t => Some (MonthFromTime (LocalTime LocalTZA t))
  | None => None
  end.

(** The string of an integral Number in a template literal; [None] is
    NaN. *)
Definition Number_toString (x : option Z) : string :=
  match x with
  | Some z => NilZero.string_of_int (Z.to_int z)
  | None => "NaN"
  end.

(** [(tick) => { const date = new Date(tick);
                 return `${date.getMonth() + 1}/${date.getDate()}`; }] *)
Definition tickFormatter (LocalTZA : Z -> bool -> Z)
    (host_parse : string -> option Z) (tick : string) : string :=
  let date := new_Date host_parse tick in
  (Number_toString (option_map (fun m => m + 1) (getMonth LocalTZA date))
   ++ "/" ++ Number_toString (getDate LocalTZA date))%string.

(** The label [m/d]. *)
Definition month_slash_day (m d : Z) : string :=
  (Number_toString (Some m) ++ "/" ++ Number_toString (Some d))%string.

(** ** The loader *)

(** What a promise is rejected with: an [Error] that the loader makes,
    with its message; the TypeError of reading a property of null; or
    the reason that [fetch] or [json()] gave. *)
Inductive Reason : Type :=
| Error_ (message : string)
| TypeError_
| Rejection (reason : string).

(** What awaiting a promise comes to. *)
Inductive Promise (A : Type) : Type :=
| Fulfilled (a : A)
| Rejected (r : Reason).
Arguments Fulfilled {A} a.
Arguments Rejected {A} r.

(** [const x = await p; k] *)
Definition await {A B : Type} (p : Promise A) (k : A -> Promise B)
    : Promise B :=
  match p with
  | Fulfilled a => k a
  | Rejected r => Rejected r
  end.

Module Response.
(** What the loader reads of a response; [json] is what [json()]
    comes to. *)
Record t (Body : Type) : Type := mk
  { ok : bool; status : Z; statusText : string; json : Promise Body }.
Arguments ok {Body} _.
Arguments status {Body} _.
Arguments statusText {Body} _.
Arguments json {Body} _.
End Response.

Module Timeline.
(** [histData.timeline]: the series of the history, each there or not. *)
Record t : Type := mk
  { cases : option JsObject; recovered : option JsObject }.
End Timeline.

Module HistoricalBody.
(** The body of the history: its [timeline], if it has one. *)
Record t : Type := mk { timeline : option Timeline.t }.
End HistoricalBody.

Module VaccineBody.
(** The body of the vaccine coverage: its [timeline], a series, if it
    has one. *)
Record t : Type := mk { timeline : option JsObject }.
End VaccineBody.

Module CountryData.
(** What the loader returns.  [Value] is the type of what the country's
    body holds. *)
Record t (Value : Type) : Type := mk
  { cases : Value;
    deaths : Value;
    recovered : Value;
    activeCases : Value;
    newCasesToday : Value;
    newDeathsToday : Value;
    newRecoveredToday : Value;
    totalVaccinated : option number;
    critical : Value;
    casesPerOneMillion : Value;
    population : Value;
    historicalChartData : list AlignedRecord.t;
    countryInfo : Value }.
Arguments totalVaccinated {Value} _.
Arguments historicalChartData {Value} _.
End CountryData.

(** The addresses of the three requests. *)
Definition country_url (countryName : string) : string :=
  ("https://disease.sh/v3/covid-19/countries/" ++ countryName
   ++ "?strict=true")%string.

Definition historical_url (countryName : string) : string :=
  ("https://disease.sh/v3/covid-19/historical/" ++ countryName
   ++ "?lastdays=365")%string.

Definition vaccine_url (countryName : string) : string :=
  ("https://disease.sh/v3/covid-19/vaccine/coverage/countries/" ++ countryName
   ++ "?lastdays=365")%string.

(** The messages of the two errors of the loader. *)
Definition not_found_message (countryName : string) : string :=
  ("Country data not found for " ++ String "034"%char countryName
   ++ String "034"%char ". Please check the country name.")%string.

Definition failed_message (countryName statusText : string) : string :=
  ("Failed to fetch data for " ++ countryName ++ ": " ++ statusText)%string.

(** [body && body.timeline], or null: the timeline of a response that
    is [ok]; a response that is not only has a warning logged. *)
Definition timeline_of {Body T : Type} (timeline : Body -> option T)
    (response : Response.t (option Body)) : Promise (option T) :=
  if Response.ok response
  then await (Response.json response)
         (fun body =>
            Fulfilled match body with
                      | Some b => timeline b
                      | None => None
                      end)
  else Fulfilled None.

(** [totalVaccinatedCount]: 0, or the value of the vaccine series at
    the last of its keys. *)
Definition totalVaccinatedCount (historicalVaccineData : option JsObject)
    : option number :=
  match historicalVaccineData with
  | Some o =>
      let vaccineDates := Object_keys o in
      if (0 <? List.length vaccineDates)%nat
      then match nth_error vaccineDates (List.length vaccineDates - 1) with
           | Some k => Get o k
           | None => None
           end
      else Some zero
  | None => Some zero
  end.

Section Loader.

Variable host_parse : string -> option Z.

(** What the body of a country holds under its keys. *)
Variable Value : Type.

(** The network: what [fetch] comes to at an address, for each of the
    three kinds of body.  A body is [None] when it is null. *)
Variable fetch_country :
  string -> Promise (Response.t (option (string -> Value))).
Variable fetch_historical :
  string -> Promise (Response.t (option HistoricalBody.t)).
Variable fetch_vaccine :
  string -> Promise (Response.t (option VaccineBody.t)).

(** [fetchDataForCountry(countryName)].  What it logs is left out; its
    [catch] throws again what it caught. *)
Definition fetchDataForCountry (countryName : string)
    : Promise (CountryData.t Value) :=
  await (fetch_country (country_url countryName)) (fun countryResponse =>
  if negb (Response.ok countryResponse)
  then
    if Response.status countryResponse =? 404
    then Rejected (Error_ (not_found_message countryName))
    else Rejected (Error_ (failed_message countryName
                             (Response.statusText countryResponse)))
  else
  await (Response.json countryResponse) (fun data =>
  await (fetch_historical (historical_url countryName))
        (fun historicalResponse =>
  await (timeline_of HistoricalBody.timeline historicalResponse)
        (fun historicalTimelineData =>
  await (fetch_vaccine (vaccine_url countryName)) (fun vaccineResponse =>
  await (timeline_of VaccineBody.timeline vaccineResponse)
        (fun historicalVaccineData =>
  let historicalChartData :=
    processHistoricalData host_parse
      match historicalTimelineData with
      | Some t => Timeline.cases t
      | None => None
      end
      match historicalTimelineData with
      | Some t => Timeline.recovered t
      | None => None
      end
      historicalVaccineData in
  match data with
  | None => Rejected TypeError_
  | Some data =>
      Fulfilled
        {| CountryData.cases := data "cases"%string;
           CountryData.deaths := data "deaths"%string;
           CountryData.recovered := data "recovered"%string;
           CountryData.activeCases := data "active"%string;
           CountryData.newCasesToday := data "todayCases"%string;
           CountryData.newDeathsToday := data "todayDeaths"%string;
           CountryData.newRecoveredToday := data "todayRecovered"%string;
           CountryData.totalVaccinated :=
             totalVaccinatedCount historicalVaccineData;
           CountryData.critical := data "critical"%string;
           CountryData.casesPerOneMillion := data "casesPerOneMillion"%string;
           CountryData.population := data "population"%string;
           CountryData.historicalChartData := historicalChartData;
           CountryData.countryInfo := data "countryInfo"%string |}
  end)))))).

End Loader.

(** ** Vocabulary of the charts *)

(** [s ? s[k] || 0 : 0]: the field that the aligner fills from the
    series [s] at the date [k]. *)
Definition field_at (s : option JsObject) (k : string) : number :=
  match s with
  | Some o => or_number (Get o k) zero
  | None => zero
  end.

(** A date string that denotes a date, [margin] days at least inside
    the range of time values. *)
Definition date_within (host_parse : string -> option Z) (margin : Z)
    (k : string) : Prop :=
  exists t,
    new_Date host_parse k = Some t
    /\ Z.abs t + margin * msPerDay <= maxTime.

(** The record of a series at a date, if it has one. *)
Definition record_at (l : list AlignedRecord.t) (k : string)
    : option AlignedRecord.t :=
  find (fun d => String.eqb (AlignedRecord.date d) k) l.

Definition dates_of (l : list AlignedRecord.t) : list string :=
  map AlignedRecord.date l.

Definition row_dates (data : list ChartRow.t) : list string :=
  map ChartRow.date data.

(** The series of a country whose data may not be there. *)
Definition series_or_none (s : option (list AlignedRecord.t))
    : list AlignedRecord.t :=
  match s with Some l => l | None => [] end.

(** The keys of a country's columns. *)
Definition column_keys (country : string) : list string :=
  [(country ++ " Cases")%string; (country ++ " Vaccinations")%string;
   (country ++ " Recovered")%string].

(** What the columns of a country hold in the row of a date: the values
    of the country's record at that date, or nothing (undefined) when it
    has no record there. *)
Definition column_values (r : option AlignedRecord.t) : list (option number) :=
  match r with
  | Some d => [Some (AlignedRecord.cases d); Some (AlignedRecord.vaccines d);
               Some (AlignedRecord.recovered d)]
  | None => [None; None; None]
  end.

(** The last of the keys of an object. *)
Definition last_key (o : JsObject) : option string :=
  nth_error (Object_keys o) (List.length (Object_keys o) - 1).

(** [vacData && vacData.timeline]: the vaccine series of a body that was
    read, if it has one. *)
Definition timeline_in (vacData : option VaccineBody.t) : option JsObject :=
  match vacData with
  | Some body => VaccineBody.timeline body
  | None => None
  end.

(** A total and a chart that agree with the vaccine series [v].  If [v]
    is absent, the total is 0, and so is the vaccination value of every
    record of the chart.  If [v] has no key, the same holds, of the
    records at an [own_key].  If [v] has keys, the total is the value
    [x] of [v] at the last of them, and the record of the chart at that
    date has [x] as its vaccination value ([+0] if [x] is NaN or
    [-0]). *)
Definition total_on_chart (v : option JsObject) (total : option number)
    (chart : list AlignedRecord.t) : Prop :=
  match v with
  | None =>
      total = Some zero
      /\ forall row, In row chart -> AlignedRecord.vaccines row = zero
  | Some o =>
      match last_key o with
      | None =>
          total = Some zero
          /\ forall row, In row chart -> own_key (AlignedRecord.date row) ->
                         AlignedRecord.vaccines row = zero
      | Some k =>
          exists x row,
            Get o k = Some x
            /\ total = Some x
            /\ In row chart
            /\ AlignedRecord.date row = k
            /\ AlignedRecord.vaccines row = if ordinary x then x else zero
      end
  end.

(** ** More sample inputs *)

(** Sample series of two countries. *)
Definition sample_main : list AlignedRecord.t :=
  processHistoricalData ISO_only (Some sample_cases) None
                        (Some sample_vaccines).

Definition sample_compared : list AlignedRecord.t :=
  processHistoricalData ISO_only
    (Some [("2021-01-02"%string, of_Z 40); ("2020-12-31"%string, of_Z 20)])
    None None.

(** The row of 2 January 2021 in the chart of the two. *)
Definition sample_row : ChartRow.t :=
  {| ChartRow.date := "2021-01-02";
     ChartRow.columns :=
       [("India Cases"%string, of_Z 5);
        ("India Vaccinations"%string, zero);
        ("India Recovered"%string, zero);
        ("Italy Cases"%string, of_Z 40);
        ("Italy Vaccinations"%string, zero);
        ("Italy Recovered"%string, zero)] |}.

(** The cases of [sample_cases], listed in another order. *)
Definition sample_cases_reordered : JsObject :=
  [("2021-01-01"%string, of_Z 3); ("2021-01-02"%string, of_Z 5);
   ("+010000-01-01"%string, of_Z 9)].

(** A history whose last date is no date. *)
Definition history_without_end : list HistoryPoint.t :=
  history_on ["2021-01-21"; "2021-01-22"; "2021-01-23"; "2021-01-24";
              "2021-01-25"; "2021-01-26"; "2021-01-27"; "2021-01-28";
              "2021-01-29"; "tomorrow"]%string.

(** The forecast of [history_to_13_march] over three days, on a host in
    US Eastern time. *)
Definition march_forecast : list ForecastRecord.t :=
  [ForecastRecord.mk "2021-03-14" (of_Z 200) true;
   ForecastRecord.mk "2021-03-14" (of_Z 210) true;
   ForecastRecord.mk "2021-03-15" (of_Z 220) true].

(** The cases of [history_to_13_march], as a series. *)
Definition march_cases : JsObject :=
  map (fun d => (HistoryPoint.date d, HistoryPoint.cases d))
      history_to_13_march.

(** The forecast chart of [march_cases], on a host at UTC. *)
Definition march_chart : list ChartPoint.t :=
  match forecastChartData (fixed_offset 0) ISO_only
          (Some (processHistoricalData ISO_only (Some march_cases) None None))
  with
  | Normal pts => pts
  | Throw _ => []
  end.

(** A network where the country and its vaccine coverage are found and
    the history is not. *)
Definition sample_country : Promise (Response.t (option (string -> number))) :=
  Fulfilled (Response.mk _ true 200 "OK" (Fulfilled (Some (fun _ => zero)))).

Definition sample_historical : Promise (Response.t (option HistoricalBody.t)) :=
  Fulfilled (Response.mk _ false 404 "Not Found" (Rejected (Rejection "body"))).

Definition sample_vaccine_response : Response.t (option VaccineBody.t) :=
  Response.mk _ true 200 "OK"
    (Fulfilled (Some (VaccineBody.mk (Some sample_vaccines)))).

Definition sample_vaccine : Promise (Response.t (option VaccineBody.t)) :=
  Fulfilled sample_vaccine_response.

(** What the loader returns on that network. *)
Definition sample_loaded : CountryData.t number :=
  {| CountryData.cases := zero;
     CountryData.deaths := zero;
     CountryData.recovered := zero;
     CountryData.activeCases := zero;
     CountryData.newCasesToday := zero;
     CountryData.newDeathsToday := zero;
     CountryData.newRecoveredToday := zero;
     CountryData.totalVaccinated := Some (of_Z 1);
     CountryData.critical := zero;
     CountryData.casesPerOneMillion := zero;
     CountryData.population := zero;
     CountryData.historicalChartData :=
       processHistoricalData ISO_only None None (Some sample_vaccines);
     CountryData.countryInfo := zero |}.

(* ================================================================== *)
(** * The calendar *)

Section Calendar.

Lemma step4 y :
  (y + 1 - 1969) / 4 = (y - 1969) / 4 + (if y mod 4 =? 0 then 1 else 0).
Proof.
  destruct (y mod 4 =? 0) eqn:E; rewrite ?Z.eqb_eq, ?Z.eqb_neq in E;
    Z.div_mod_to_equations; lia.
Qed.

Lemma step100 y :
  (y + 1 - 1901) / 100 = (y - 1901) / 100 + (if y mod 100 =? 0 then 1 else 0).
Proof.
  destruct (y mod 100 =? 0) eqn:E; rewrite ?Z.eqb_eq, ?Z.eqb_neq in E;
    Z.div_mod_to_equations; lia.
Qed.

Lemma step400 y :
  (y + 1 - 1601) / 400 = (y - 1601) / 400 + (if y mod 400 =? 0 then 1 else 0).
Proof.
  destruct (y mod 400 =? 0) eqn:E; rewrite ?Z.eqb_eq, ?Z.eqb_neq in E;
    Z.div_mod_to_equations; lia.
Qed.

Lemma mod_100_4 y : y mod 100 = 0 -> y mod 4 = 0.
Proof. intros. Z.div_mod_to_equations; lia. Qed.

Lemma mod_400_100 y : y mod 400 = 0 -> y mod 100 = 0.
Proof. intros. Z.div_mod_to_equations; lia. Qed.

Lemma DaysInYear_cases y : DaysInYear y = 365 \/ DaysInYear y = 366.
Proof.
  unfold DaysInYear.
  destruct (y mod 4 =? 0), (y mod 100 =? 0), (y mod 400 =? 0); cbn [negb]; auto.
Qed.

Lemma DayFromYear_succ y : DayFromYear (y + 1) = DayFromYear y + DaysInYear y.
Proof.
  unfold DayFromYear, DaysInYear.
  rewrite step4, step100, step400.
  pose proof (mod_100_4 y); pose proof (mod_400_100 y).
  destruct (y mod 4 =? 0) eqn:E4; destruct (y mod 100 =? 0) eqn:E100;
    destruct (y mod 400 =? 0) eqn:E400; cbn [negb];
    rewrite ?Z.eqb_eq, ?Z.eqb_neq in *; lia.
Qed.

Lemma DayFromYear_bounds y :
  146097 * (y - 1970) - 600 <= 400 * DayFromYear y <= 146097 * (y - 1970) + 600.
Proof. unfold DayFromYear. Z.div_mod_to_equations. lia. Qed.

Lemma YearFromDay_spec d :
  DayFromYear (YearFromDay d) <= d < DayFromYear (YearFromDay d + 1).
Proof.
  unfold YearFromDay.
  set (y := 1970 + d * 400 / 146097).
  assert (Hy : 146097 * (y - 1970) <= 400 * d < 146097 * (y - 1970) + 146097)
    by (subst y; Z.div_mod_to_equations; lia).
  pose proof (DayFromYear_bounds (y - 1)) as B0.
  pose proof (DayFromYear_bounds y) as B1.
  pose proof (DayFromYear_bounds (y + 1)) as B2.
  pose proof (DayFromYear_bounds (y + 2)) as B3.
  destruct (d <? DayFromYear y) eqn:E1;
    [apply Z.ltb_lt in E1 | apply Z.ltb_ge in E1].
  - replace (y - 1 + 1) with y by lia. lia.
  - destruct (DayFromYear (y + 1) <=? d) eqn:E2;
      [apply Z.leb_le in E2 | apply Z.leb_gt in E2].
    + replace (y + 1 + 1) with (y + 2) by lia. lia.
    + lia.
Qed.

Lemma DayFromYear_lt y y' : y < y' -> DayFromYear y < DayFromYear y'.
Proof.
  intros H. unfold DayFromYear. Z.div_mod_to_equations. lia.
Qed.

Lemma YearFromDay_unique d y :
  DayFromYear y <= d < DayFromYear (y + 1) -> YearFromDay d = y.
Proof.
  intros H. pose proof (YearFromDay_spec d) as S.
  destruct (Z.lt_trichotomy (YearFromDay d) y) as [L | [E | G]]; trivial.
  - assert (DayFromYear (YearFromDay d + 1) <= DayFromYear y).
    { destruct (Z.eq_dec (YearFromDay d + 1) y) as [->|]; [lia|].
      apply Z.lt_le_incl, DayFromYear_lt. lia. }
    lia.
  - assert (DayFromYear (y + 1) <= DayFromYear (YearFromDay d)).
    { destruct (Z.eq_dec (y + 1) (YearFromDay d)) as [->|]; [lia|].
      apply Z.lt_le_incl, DayFromYear_lt. lia. }
    lia.
Qed.

Lemma DayWithinYear_range t :
  0 <= DayWithinYear t < DaysInYear (YearFromTime t).
Proof.
  unfold DayWithinYear, YearFromTime.
  pose proof (YearFromDay_spec (Day t)) as S.
  rewrite DayFromYear_succ in S. lia.
Qed.

Lemma MonthFromTime_range t : 0 <= MonthFromTime t <= 11.
Proof.
  unfold MonthFromTime.
  repeat match goal with
         | |- context [if ?c then _ else _] => destruct c
         end; lia.
Qed.

(** The month and the day of the month locate the day within its year. *)
Lemma DaysBeforeMonth_DateFromTime t :
  DaysBeforeMonth (YearFromTime t) (MonthFromTime t) + DateFromTime t - 1
  = DayWithinYear t.
Proof.
  unfold DateFromTime, DaysBeforeMonth, MonthFromTime.
  fold (InLeapYear t).
  repeat match goal with
         | |- context [if ?c then _ else _] => destruct c
         end; cbv beta iota zeta; lia.
Qed.

Lemma DateFromTime_range t :
  1 <= DateFromTime t <= DaysInMonth (YearFromTime t) (MonthFromTime t).
Proof.
  pose proof (DayWithinYear_range t) as R.
  pose proof (DaysInYear_cases (YearFromTime t)) as C.
  unfold DateFromTime, DaysInMonth, MonthFromTime.
  fold (InLeapYear t) in *. unfold InLeapYear in *.
  repeat match goal with
         | |- context [if ?c then _ else _] =>
             let E := fresh "E" in
             destruct c eqn:E;
             [apply Z.ltb_lt in E | apply Z.ltb_ge in E]
         end; cbv beta iota zeta; lia.
Qed.

Lemma month_div_mod m : 0 <= m <= 11 -> m / 12 = 0 /\ m mod 12 = m.
Proof. intros. Z.div_mod_to_equations. lia. Qed.

(** Setting the day of the month to [DateFromTime t + i] moves the day
    number by [i]. *)
Lemma MakeDay_civil t i :
  MakeDay (YearFromTime t) (MonthFromTime t) (DateFromTime t + i) = Day t + i.
Proof.
  unfold MakeDay.
  destruct (month_div_mod _ (MonthFromTime_range t)) as [-> ->].
  rewrite Z.add_0_r.
  pose proof (DaysBeforeMonth_DateFromTime t) as H.
  unfold DayWithinYear in H. lia.
Qed.

End Calendar.

(* ================================================================== *)
(** * Date strings *)

Section IsoFormat.

Ltac digit_cases d H :=
  assert (d = 0 \/ d = 1 \/ d = 2 \/ d = 3 \/ d = 4 \/ d = 5 \/ d = 6
          \/ d = 7 \/ d = 8 \/ d = 9) as H by lia;
  repeat destruct H as [H | H]; subst d.

Lemma digit_val_char d : 0 <= d <= 9 -> digit_val (digit_char d) = Some d.
Proof. intros R. digit_cases d H; reflexivity. Qed.

Lemma digit_char_not_sign d :
  0 <= d <= 9 ->
  Ascii.eqb (digit_char d) "+"%char = false
  /\ Ascii.eqb (digit_char d) "-"%char = false
  /\ Ascii.eqb (digit_char d) "T"%char = false.
Proof. intros R. digit_cases d H; repeat split; reflexivity. Qed.

Lemma mod10_range n : 0 <= n mod 10 <= 9.
Proof. Z.div_mod_to_equations. lia. Qed.

Lemma digits_val_pad2 n : 0 <= n <= 99 -> digits_val 0 (pad2 n) = Some n.
Proof.
  intros R. unfold pad2, digits_val.
  rewrite !digit_val_char by apply mod10_range.
  f_equal. Z.div_mod_to_equations. lia.
Qed.

Lemma digits_val_pad4 n : 0 <= n <= 9999 -> digits_val 0 (pad4 n) = Some n.
Proof.
  intros R. unfold pad4, pad3, pad2, digits_val.
  rewrite !digit_val_char by apply mod10_range.
  f_equal. Z.div_mod_to_equations. lia.
Qed.

Lemma digits_val_pad6 n : 0 <= n <= 999999 -> digits_val 0 (pad6 n) = Some n.
Proof.
  intros R. unfold pad6, pad4, pad3, pad2, digits_val.
  rewrite !digit_val_char by apply mod10_range.
  f_equal. Z.div_mod_to_equations. lia.
Qed.

Lemma civil_day_of_time t :
  civil_day (YearFromTime t) (MonthFromTime t + 1) (DateFromTime t)
  = Some (Day t).
Proof.
  unfold civil_day.
  pose proof (MonthFromTime_range t) as M.
  pose proof (DateFromTime_range t) as D.
  replace (MonthFromTime t + 1 - 1) with (MonthFromTime t) by lia.
  replace ((1 <=? MonthFromTime t + 1) && (MonthFromTime t + 1 <=? 12)
           && (1 <=? DateFromTime t)
           && (DateFromTime t
             <=? DaysInMonth (YearFromTime t) (MonthFromTime t)))
    with true.
  - f_equal. pose proof (MakeDay_civil t 0) as E.
    rewrite !Z.add_0_r in E. exact E.
  - symmetry. rewrite !andb_true_iff, !Z.leb_le. lia.
Qed.

Lemma DateFromTime_le_31 t : 1 <= DateFromTime t <= 31.
Proof.
  pose proof (DateFromTime_range t) as D.
  pose proof (DaysInYear_cases (YearFromTime t)) as C.
  pose proof (MonthFromTime_range t) as M.
  unfold DaysInMonth in D.
  destruct (MonthFromTime t) as [|p|p]; try lia.
  do 4 (destruct p as [p|p|]; try lia).
Qed.

Lemma Day_range t : Z.abs t <= maxTime -> -100000000 <= Day t <= 100000000.
Proof. unfold Day, maxTime, msPerDay. intros. Z.div_mod_to_equations. lia. Qed.

Lemma YearFromTime_range t :
  Z.abs t <= maxTime -> -271821 <= YearFromTime t <= 275760.
Proof.
  intros R. apply Day_range in R. unfold YearFromTime.
  pose proof (YearFromDay_spec (Day t)) as S.
  pose proof (DayFromYear_bounds (YearFromDay (Day t))).
  pose proof (DayFromYear_bounds (YearFromDay (Day t) + 1)).
  lia.
Qed.

(** Reading back the date part of [toISOString] gives midnight of the
    same UTC day. *)
Lemma parse_date_chars t :
  Z.abs t <= maxTime ->
  parse_iso_date (string_of_list_ascii (date_chars t))
  = Some (Day t * msPerDay).
Proof.
  intros R. unfold parse_iso_date, date_chars.
  rewrite list_ascii_of_string_of_list_ascii.
  pose proof (YearFromTime_range t R) as Y.
  pose proof (MonthFromTime_range t) as M.
  pose proof (DateFromTime_le_31 t) as D.
  pose proof (civil_day_of_time t) as C.
  set (y := YearFromTime t) in *.
  set (mo := MonthFromTime t + 1) in *.
  set (d := DateFromTime t) in *.
  assert (Hm : digits_val 0 (pad2 mo) = Some mo)
    by (apply digits_val_pad2; subst mo; lia).
  assert (Hd : digits_val 0 (pad2 d) = Some d)
    by (apply digits_val_pad2; lia).
  unfold year_chars.
  destruct ((0 <=? y) && (y <=? 9999)) eqn:E4.
  - apply andb_true_iff in E4. rewrite Z.leb_le, Z.leb_le in E4.
    pose proof (digits_val_pad4 y E4) as Hy.
    unfold pad4, pad3, pad2 in *. cbn [app].
    destruct (digit_char_not_sign (y / 1000 mod 10) (mod10_range _))
      as (-> & -> & _).
    unfold parse_calendar. cbn [skipn firstn app].
    change (Ascii.eqb "-" "-") with true. cbn [andb].
    unfold parse_fields. rewrite Hy.
    rewrite Hm, Hd. cbn [andb]. rewrite C. unfold MakeDate. f_equal. lia.
  - destruct (0 <=? y) eqn:E0.
    + apply Z.leb_le in E0.
      assert (Hy : digits_val 0 (pad6 y) = Some y)
        by (apply digits_val_pad6; lia).
      unfold pad6, pad4, pad3, pad2 in *. cbn [app].
      change (Ascii.eqb "+" "+") with true. cbv iota.
      unfold parse_calendar. cbn [skipn firstn app].
      change (Ascii.eqb "-" "-") with true. cbn [andb].
      unfold parse_fields. rewrite Hy.
      rewrite Hm, Hd. cbn [andb]. rewrite C. unfold MakeDate. f_equal. lia.
    + apply Z.leb_gt in E0.
      assert (Hy : digits_val 0 (pad6 (- y)) = Some (- y))
        by (apply digits_val_pad6; lia).
      unfold pad6, pad4, pad3, pad2 in *. cbn [app].
      change (Ascii.eqb "-" "+") with false.
      change (Ascii.eqb "-" "-") with true. cbv iota.
      unfold parse_calendar. cbn [skipn firstn app].
      change (Ascii.eqb "-" "-") with true. cbn [andb].
      unfold parse_fields. rewrite Hy.
      rewrite Hm, Hd.
      replace (- y =? 0) with false by (symmetry; apply Z.eqb_neq; lia).
      cbn [andb]. rewrite Z.opp_involutive, C. unfold MakeDate. f_equal. lia.
Qed.

End IsoFormat.

Section ToISOString.

Lemma before_T_app l rest :
  Forall (fun c => Ascii.eqb c "T"%char = false) l ->
  before_T (l ++ "T"%char :: rest) = l.
Proof.
  induction 1 as [|c l Hc _ IH]; cbn [app before_T].
  - reflexivity.
  - rewrite Hc, IH. reflexivity.
Qed.

Lemma pad2_no_T n : Forall (fun c => Ascii.eqb c "T"%char = false) (pad2 n).
Proof.
  unfold pad2. repeat constructor;
    apply (digit_char_not_sign _ (mod10_range _)).
Qed.

Lemma year_chars_no_T y :
  Forall (fun c => Ascii.eqb c "T"%char = false) (year_chars y).
Proof.
  unfold year_chars, pad6, pad4, pad3.
  destruct ((0 <=? y) && (y <=? 9999)); [|destruct (0 <=? y)];
    repeat first [ apply pad2_no_T | constructor ];
    try apply (digit_char_not_sign _ (mod10_range _)); reflexivity.
Qed.

Lemma date_chars_no_T t :
  Forall (fun c => Ascii.eqb c "T"%char = false) (date_chars t).
Proof.
  unfold date_chars.
  apply Forall_app; split; [apply year_chars_no_T|].
  apply Forall_cons; [reflexivity|].
  apply Forall_app; split; [apply pad2_no_T|].
  apply Forall_cons; [reflexivity|apply pad2_no_T].
Qed.

Lemma toISOString_date t :
  exists iso, toISOString (Some t) = Normal iso /\ split_T_0 iso = ISO_date t.
Proof.
  eexists. split; [reflexivity|].
  unfold split_T_0, ISO_date.
  rewrite list_ascii_of_string_of_list_ascii.
  rewrite before_T_app by apply date_chars_no_T. reflexivity.
Qed.

End ToISOString.

Section SetDate.

Variable LocalTZA : Z -> bool -> Z.

Lemma setDate_getDate t0 i :
  setDate LocalTZA (Some t0)
    (option_map (fun d => d + i) (getDate LocalTZA (Some t0)))
  = TimeClip (shifted LocalTZA t0 i).
Proof.
  cbn [getDate option_map setDate]. unfold shifted. do 2 f_equal.
  rewrite MakeDay_civil. unfold MakeDate, Day, TimeWithinDay.
  pose proof (Z.div_mod (LocalTime LocalTZA t0) msPerDay) as E.
  unfold msPerDay in *. lia.
Qed.

End SetDate.

(* ================================================================== *)
(** * One day after another *)

Section Tomorrow.

Lemma DaysInYear_leap y :
  DaysInYear y = if is_leap_year y then 366 else 365.
Proof.
  unfold DaysInYear, is_leap_year.
  pose proof (mod_100_4 y); pose proof (mod_400_100 y).
  destruct (y mod 4 =? 0) eqn:E4, (y mod 100 =? 0) eqn:E100,
    (y mod 400 =? 0) eqn:E400; cbn [negb andb orb]; trivial;
    rewrite ?Z.eqb_eq, ?Z.eqb_neq in *; lia.
Qed.

Lemma Day_succ t : Day (t + msPerDay) = Day t + 1.
Proof. unfold Day, msPerDay. Z.div_mod_to_equations. lia. Qed.

Ltac month_cases m H :=
  assert (m = 0 \/ m = 1 \/ m = 2 \/ m = 3 \/ m = 4 \/ m = 5 \/ m = 6
          \/ m = 7 \/ m = 8 \/ m = 9 \/ m = 10 \/ m = 11) as H by lia;
  repeat destruct H as [H | H]; subst m.

Ltac cascade :=
  repeat match goal with
         | |- context [if ?a <? ?b then _ else _] =>
             destruct (Z.ltb_spec a b); cbv beta iota
         end.

(** The day [d] of month [m] (0 = January) is found again from its
    place in the year. *)
Lemma month_date_found t y m d :
  YearFromTime t = y ->
  0 <= m <= 11 ->
  1 <= d <= DaysInMonth y m ->
  DayWithinYear t = DaysBeforeMonth y m + d - 1 ->
  MonthFromTime t = m /\ DateFromTime t = d.
Proof.
  intros Hy Hm Hd Hw.
  unfold DateFromTime, MonthFromTime, InLeapYear. rewrite Hw, Hy.
  pose proof (DaysInYear_cases y) as C.
  unfold DaysBeforeMonth, DaysInMonth in *.
  month_cases m H; cbv beta iota zeta in *; cascade; lia.
Qed.

Lemma month_days_DaysInMonth y m :
  1 <= m <= 12 -> month_days y m = DaysInMonth y (m - 1).
Proof.
  intros Hm. unfold month_days, DaysInMonth. rewrite DaysInYear_leap.
  assert (m = 1 \/ m = 2 \/ m = 3 \/ m = 4 \/ m = 5 \/ m = 6 \/ m = 7
          \/ m = 8 \/ m = 9 \/ m = 10 \/ m = 11 \/ m = 12) as H by lia.
  repeat destruct H as [H | H]; subst m; try reflexivity.
  destruct (is_leap_year y); reflexivity.
Qed.

Lemma day_within_year_range y m d :
  0 <= m <= 11 -> 1 <= d <= DaysInMonth y m ->
  0 <= DaysBeforeMonth y m + d - 1 < DaysInYear y.
Proof.
  intros Hm Hd. pose proof (DaysInYear_cases y) as C.
  unfold DaysBeforeMonth, DaysInMonth in *.
  month_cases m H; cbv beta iota zeta in *; lia.
Qed.

Lemma civil_of_time_unique t y m d :
  civil_valid (y, m, d) ->
  Day t = MakeDay y (m - 1) d ->
  civil_of_time t = (y, m, d).
Proof.
  intros [Hm Hd] E. rewrite month_days_DaysInMonth in Hd by exact Hm.
  unfold MakeDay in E.
  destruct (month_div_mod (m - 1) ltac:(lia)) as [Q M].
  rewrite Q, M, Z.add_0_r in E.
  pose proof (day_within_year_range y (m - 1) d ltac:(lia) Hd) as R.
  assert (Hy : YearFromTime t = y).
  { apply YearFromDay_unique. rewrite DayFromYear_succ. lia. }
  destruct (month_date_found t y (m - 1) d Hy ltac:(lia) Hd) as [HM HD].
  { unfold DayWithinYear. rewrite Hy. lia. }
  unfold civil_of_time. rewrite Hy, HM, HD. repeat f_equal. lia.
Qed.

Lemma civil_of_time_valid t : civil_valid (civil_of_time t).
Proof.
  unfold civil_of_time, civil_valid.
  pose proof (MonthFromTime_range t). pose proof (DateFromTime_range t).
  rewrite month_days_DaysInMonth by lia.
  replace (MonthFromTime t + 1 - 1) with (MonthFromTime t) by lia. lia.
Qed.

(** The day after a date that exists is the next day number, and
    exists. *)
Lemma MakeDay_tomorrow y m d :
  civil_valid (y, m, d) ->
  civil_valid (tomorrow (y, m, d))
  /\ (let '(y', m', d') := tomorrow (y, m, d) in MakeDay y' (m' - 1) d')
     = MakeDay y (m - 1) d + 1.
Proof.
  intros [Hm Hd]. unfold tomorrow, civil_valid.
  destruct (Z.ltb_spec d (month_days y m)) as [L | L].
  - split; [lia|]. unfold MakeDay. lia.
  - assert (d = month_days y m) as -> by lia.
    destruct (Z.ltb_spec m 12) as [L' | L'].
    + assert (exists k, m = k + 1 /\ 0 <= k <= 10) as (k & -> & Hk)
        by (exists (m - 1); lia).
      clear Hm Hd L L'.
      rewrite (month_days_DaysInMonth y (k + 1)) by lia.
      rewrite (month_days_DaysInMonth y (k + 1 + 1)) by lia.
      unfold MakeDay.
      replace (k + 1 + 1 - 1) with (k + 1) by lia.
      replace (k + 1 - 1) with k by lia.
      destruct (month_div_mod k ltac:(lia)) as [-> ->].
      destruct (month_div_mod (k + 1) ltac:(lia)) as [-> ->].
      rewrite Z.add_0_r.
      unfold DaysBeforeMonth, DaysInMonth.
      pose proof (DaysInYear_cases y) as C.
      assert (k = 0 \/ k = 1 \/ k = 2 \/ k = 3 \/ k = 4 \/ k = 5 \/ k = 6
              \/ k = 7 \/ k = 8 \/ k = 9 \/ k = 10) as H by lia.
      repeat destruct H as [H | H]; subst k; cbv beta iota zeta;
        change (0 + 1) with 1; change (1 + 1) with 2; change (2 + 1) with 3;
        change (3 + 1) with 4; change (4 + 1) with 5; change (5 + 1) with 6;
        change (6 + 1) with 7; change (7 + 1) with 8; change (8 + 1) with 9;
        change (9 + 1) with 10; change (10 + 1) with 11;
        cbv beta iota zeta; lia.
    + assert (m = 12) as -> by lia.
      split; [unfold month_days; lia|].
      unfold MakeDay. change (12 - 1) with 11. change (1 - 1) with 0.
      change (11 / 12) with 0. change (11 mod 12) with 11.
      change (0 / 12) with 0. change (0 mod 12) with 0.
      rewrite !Z.add_0_r, DayFromYear_succ.
      unfold DaysBeforeMonth, month_days. cbv beta iota zeta. lia.
Qed.

Lemma civil_tomorrow t :
  civil_of_time (t + msPerDay) = tomorrow (civil_of_time t).
Proof.
  pose proof (civil_of_time_valid t) as V.
  pose proof (MakeDay_civil t 0) as E. rewrite !Z.add_0_r in E.
  unfold civil_of_time in *.
  set (y := YearFromTime t) in *. set (m := MonthFromTime t + 1) in *.
  set (d := DateFromTime t) in *.
  replace (MonthFromTime t) with (m - 1) in E by (subst m; lia).
  destruct (MakeDay_tomorrow y m d V) as [V' E'].
  destruct (tomorrow (y, m, d)) as [[y' m'] d'].
  apply civil_of_time_unique; trivial.
  rewrite Day_succ, E', E. reflexivity.
Qed.

Lemma civil_after_days t k :
  civil_of_time (t + Z.of_nat k * msPerDay)
  = Nat.iter k tomorrow (civil_of_time t).
Proof.
  induction k as [|k IH].
  - unfold Nat.iter. cbn [nat_rect]. f_equal. lia.
  - rewrite Nat.iter_succ, <- IH, <- civil_tomorrow. f_equal. lia.
Qed.

Lemma ISO_date_civil t : ISO_date t = civil_string (civil_of_time t).
Proof. reflexivity. Qed.

End Tomorrow.

(* ================================================================== *)
(** * The forecasting loop *)

Section ForLoop.

Context {R : Type}.

Lemma for_loop_Normal (body : Z -> Completion R) (f : Z -> R) count i acc :
  (forall k, (k < count)%nat ->
             body (i + Z.of_nat k) = Normal (f (i + Z.of_nat k))) ->
  for_loop body count i acc
  = Normal (acc ++ map (fun k => f (i + Z.of_nat k)) (seq 0 count)).
Proof.
  revert i acc. induction count as [|c IH]; intros i acc H;
    cbn [for_loop seq map].
  - rewrite app_nil_r. reflexivity.
  - pose proof (H 0%nat ltac:(lia)) as H0. rewrite Z.add_0_r in H0.
    rewrite H0, IH.
    + rewrite <- app_assoc. cbn [app]. rewrite Z.add_0_r.
      do 3 f_equal. rewrite <- seq_shift, map_map.
      apply map_ext. intros k. f_equal. lia.
    + intros k Hk. specialize (H (S k) ltac:(lia)).
      replace (i + 1 + Z.of_nat k) with (i + Z.of_nat (S k)) by lia. exact H.
Qed.

End ForLoop.

Section ForLoopInversion.

Context {R : Type}.


End ForLoopInversion.

Section Forecast.

Variable LocalTZA : Z -> bool -> Z.
Variable host_parse : string -> option Z.

Lemma forecastStep_Normal t0 m b n i :
  Z.abs (shifted LocalTZA t0 i) <= maxTime ->
  forecastStep LocalTZA (Some t0) m b n i
  = Normal {| ForecastRecord.date := ISO_date (shifted LocalTZA t0 i);
              ForecastRecord.cases := forecastedCases m b n i;
              ForecastRecord.isForecast := true |}.
Proof.
  intros R. unfold forecastStep. rewrite setDate_getDate.
  unfold TimeClip. apply Z.leb_le in R. rewrite R.
  destruct (toISOString_date (shifted LocalTZA t0 i)) as (iso & -> & ->).
  reflexivity.
Qed.

Lemma forecastData_Normal hd last t0 h :
  (10 <= List.length hd)%nat ->
  nth_error hd (List.length hd - 1) = Some last ->
  new_Date host_parse (HistoryPoint.date last) = Some t0 ->
  (forall i, 1 <= i <= h -> Z.abs (shifted LocalTZA t0 i) <= maxTime) ->
  forecastData LocalTZA host_parse (Some hd) h
  = Normal (map (forecastRecord LocalTZA hd t0) (counters h)).
Proof.
  intros Hn Hlast Ht0 Hr. unfold forecastData.
  replace (List.length hd <? 10)%nat with false
    by (symmetry; apply Nat.ltb_ge; exact Hn).
  destruct (fit hd) as [m b] eqn:Hfit. rewrite Hlast, Ht0.
  rewrite for_loop_Normal with
    (f := fun i => {| ForecastRecord.date := ISO_date (shifted LocalTZA t0 i);
                      ForecastRecord.cases :=
                        forecastedCases m b
                                    (of_Z (Z.of_nat (List.length hd))) i;
                      ForecastRecord.isForecast := true |}).
  - cbn [app]. unfold counters. rewrite map_map.
    unfold forecastRecord. rewrite Hfit. reflexivity.
  - intros k Hk. apply forecastStep_Normal, Hr. lia.
Qed.

Lemma shifted_range t0 i h :
  plausible_zone LocalTZA ->
  Z.abs t0 + (h + 2) * msPerDay <= maxTime ->
  1 <= i <= h ->
  Z.abs (shifted LocalTZA t0 i) <= maxTime.
Proof.
  intros [B _] R Hi. unfold shifted, UTC, LocalTime.
  pose proof (B t0 true).
  pose proof (B (t0 + LocalTZA t0 true + i * msPerDay) false).
  unfold msPerDay in *. lia.
Qed.

End Forecast.

(* ================================================================== *)
(** * Sorting and sets *)

Section SortLemmas.

Context {A : Type} (comparefn : A -> A -> option Z).

Lemma sort_insert_perm x l : Permutation (sort_insert comparefn x l) (x :: l).
Proof.
  induction l as [|y l IH]; cbn [sort_insert].
  - apply Permutation_refl.
  - destruct (0 <? SortCompare comparefn x y).
    + apply perm_trans with (y :: x :: l); [|apply perm_swap].
      apply perm_skip, IH.
    + apply Permutation_refl.
Qed.

Lemma Array_sort_perm l : Permutation (Array_sort comparefn l) l.
Proof.
  induction l as [|x l IH]; cbn [Array_sort].
  - apply perm_nil.
  - apply perm_trans with (x :: Array_sort comparefn l).
    + apply sort_insert_perm.
    + apply perm_skip, IH.
Qed.

End SortLemmas.

Section SortDates.

Variable host_parse : string -> option Z.


Lemma date_le_trans a b c :
  date_le host_parse a b -> date_le host_parse b c -> date_le host_parse a c.
Proof.
  intros (ta & tb & Ha & Hb & L1) (tb' & tc & Hb' & Hc & L2).
  rewrite Hb in Hb'. injection Hb' as <-.
  exists ta, tc. repeat split; trivial. lia.
Qed.

Lemma compare_le x y :
  valid_date host_parse x -> valid_date host_parse y ->
  (0 <? SortCompare (compareDates host_parse) x y) = false ->
  date_le host_parse x y.
Proof.
  unfold valid_date, SortCompare, compareDates, date_le. intros Hx Hy.
  destruct (new_Date host_parse x) as [tx|]; [|congruence].
  destruct (new_Date host_parse y) as [ty|]; [|congruence].
  intros H. apply Z.ltb_ge in H. exists tx, ty. repeat split; trivial. lia.
Qed.

Lemma compare_gt x y :
  valid_date host_parse x -> valid_date host_parse y ->
  (0 <? SortCompare (compareDates host_parse) x y) = true ->
  date_le host_parse y x.
Proof.
  unfold valid_date, SortCompare, compareDates, date_le. intros Hx Hy.
  destruct (new_Date host_parse x) as [tx|]; [|congruence].
  destruct (new_Date host_parse y) as [ty|]; [|congruence].
  intros H. apply Z.ltb_lt in H. exists ty, tx. repeat split; trivial. lia.
Qed.

Lemma sort_insert_sorted x l :
  valid_date host_parse x -> Forall (valid_date host_parse) l ->
  StronglySorted (date_le host_parse) l ->
  StronglySorted (date_le host_parse)
    (sort_insert (compareDates host_parse) x l).
Proof.
  intros Hx Hl Hs. induction Hs as [|y l Hs IH Hy]; cbn [sort_insert].
  - repeat constructor.
  - inversion Hl as [|? ? Vy Vl]; subst.
    destruct (0 <? SortCompare (compareDates host_parse) x y) eqn:E.
    + constructor; [apply IH; assumption|].
      apply (Permutation_Forall
               (Permutation_sym
                  (sort_insert_perm (compareDates host_parse) x l))).
      constructor; [apply compare_gt; assumption | assumption].
    + pose proof (compare_le x y Hx Vy E) as Lxy.
      constructor; [constructor; assumption|].
      constructor; [assumption|].
      eapply Forall_impl; [|exact Hy].
      intros z Lyz. eapply date_le_trans; eassumption.
Qed.

Lemma Array_sort_sorted l :
  Forall (valid_date host_parse) l ->
  StronglySorted (date_le host_parse)
    (Array_sort (compareDates host_parse) l).
Proof.
  induction 1 as [|x l Hx Hl IH]; cbn [Array_sort].
  - constructor.
  - apply sort_insert_sorted; trivial.
    apply (Permutation_Forall
           (Permutation_sym (Array_sort_perm (compareDates host_parse) l))).
    exact Hl.
Qed.

End SortDates.

Section SetLemmas.

Lemma existsb_eqb_In k s : existsb (String.eqb k) s = true <-> In k s.
Proof.
  rewrite existsb_exists. split.
  - intros (x & Hx & E). apply String.eqb_eq in E. subst. exact Hx.
  - intros H. exists k. split; [exact H | apply String.eqb_refl].
Qed.

Lemma Set_add_In s k x : In x (Set_add s k) <-> In x s \/ x = k.
Proof.
  unfold Set_add. destruct (existsb (String.eqb k) s) eqn:E.
  - apply existsb_eqb_In in E. split; [auto|]. intros [H | ->]; trivial.
  - rewrite in_app_iff. cbn [In]. intuition.
Qed.

Lemma fold_Set_add_In l acc x :
  In x (fold_left Set_add l acc) <-> In x acc \/ In x l.
Proof.
  revert acc. induction l as [|k l IH]; intros acc; cbn [fold_left In].
  - intuition.
  - rewrite IH, Set_add_In. intuition.
Qed.

Lemma Set_add_NoDup s k : NoDup s -> NoDup (Set_add s k).
Proof.
  intros H. unfold Set_add. destruct (existsb (String.eqb k) s) eqn:E; trivial.
  apply NoDup_app; trivial.
  - repeat constructor. intros [].
  - intros x Hx [<- | []].
    apply existsb_eqb_In in Hx. congruence.
Qed.

Lemma fold_Set_add_NoDup l acc :
  NoDup acc -> NoDup (fold_left Set_add l acc).
Proof.
  revert acc. induction l as [|k l IH]; intros acc H; cbn [fold_left]; trivial.
  apply IH, Set_add_NoDup, H.
Qed.

Lemma StronglySorted_remove {A} (R : A -> A -> Prop) l1 x l2 :
  StronglySorted R (l1 ++ x :: l2) -> StronglySorted R (l1 ++ l2).
Proof.
  induction l1 as [|a l1 IH]; cbn [app]; intros H.
  - inversion H; assumption.
  - inversion H as [|? ? Hs Hf]; subst. constructor; [apply IH, Hs|].
    rewrite Forall_app in *. destruct Hf as [F1 F2].
    inversion F2; subst. split; assumption.
Qed.

Lemma fold_Set_add_sorted (R : string -> string -> Prop) l acc :
  StronglySorted R (acc ++ l) -> StronglySorted R (fold_left Set_add l acc).
Proof.
  revert acc. induction l as [|k l IH]; intros acc H; cbn [fold_left].
  - rewrite app_nil_r in H. exact H.
  - apply IH. unfold Set_add. destruct (existsb (String.eqb k) acc).
    + eapply StronglySorted_remove, H.
    + rewrite <- app_assoc. exact H.
Qed.

Lemma new_Set_In l x : In x (new_Set l) <-> In x l.
Proof. unfold new_Set. rewrite fold_Set_add_In. cbn [In]. intuition. Qed.

Lemma new_Set_NoDup l : NoDup (new_Set l).
Proof. apply fold_Set_add_NoDup. constructor. Qed.

Lemma new_Set_sorted (R : string -> string -> Prop) l :
  StronglySorted R l -> StronglySorted R (new_Set l).
Proof. intros H. apply fold_Set_add_sorted. exact H. Qed.

End SetLemmas.

Section Align.

Variable host_parse : string -> option Z.

(** The dates of the aligned records: the sorted keys, each once. *)
Lemma aligned_dates c r v :
  map AlignedRecord.date (processHistoricalData host_parse c r v)
  = new_Set (Array_sort (compareDates host_parse) (all_keys c r v)).
Proof.
  unfold processHistoricalData. rewrite map_map. cbn [AlignedRecord.date].
  apply map_id.
Qed.

Lemma aligned_date_In c r v k :
  In k (map AlignedRecord.date (processHistoricalData host_parse c r v))
  <-> In k (all_keys c r v).
Proof.
  rewrite aligned_dates, new_Set_In. split; apply Permutation_in.
  - apply Array_sort_perm.
  - apply Permutation_sym, Array_sort_perm.
Qed.

End Align.

Section Fields.

Lemma or_number_ordinary x :
  ordinary x = true -> or_number (Some x) zero = x.
Proof.
  destruct x as [[|]|[|]| |[|] m e]; intros H; try discriminate H; reflexivity.
Qed.

Lemma Get_In o k x : Get o k = Some x -> In (k, x) o.
Proof.
  induction o as [|[k' v] o IH]; cbn [Get]; [discriminate|].
  destruct (String.eqb k k') eqn:E.
  - apply String.eqb_eq in E. subst. intros [= ->]. left. reflexivity.
  - intros H. right. apply IH, H.
Qed.

Lemma Get_None o k : ~ In k (Object_keys o) -> Get o k = None.
Proof.
  induction o as [|[k' v] o IH]; cbn [Get Object_keys map fst In]; trivial.
  intros H. destruct (String.eqb k k') eqn:E.
  - apply String.eqb_eq in E. subst. tauto.
  - apply IH. tauto.
Qed.

Lemma field_value s k :
  metric_series s ->
  match s with
  | Some o => or_number (Get o k) zero
  | None => zero
  end = value_at s k.
Proof.
  unfold metric_series, value_at. destruct s as [o|]; cbn [or_empty]; trivial.
  intros H. destruct (Get o k) as [x|] eqn:E; [|reflexivity].
  apply or_number_ordinary.
  apply Get_In in E. rewrite Forall_forall in H. apply (H _ E).
Qed.

Lemma field_absent s k :
  ~ In k (Object_keys (or_empty s)) ->
  match s with
  | Some o => or_number (Get o k) zero
  | None => zero
  end = zero.
Proof.
  destruct s as [o|]; cbn [or_empty]; trivial.
  intros H. rewrite (Get_None _ _ H). reflexivity.
Qed.

End Fields.

(* ================================================================== *)
(** * Rounding and clamping *)

Section Rounding.





















End Rounding.

(* ================================================================== *)
(** * The sums of the regression *)

Section IndexSums.

Lemma forEach_app l1 l2 i s :
  forEach (l1 ++ l2) i s
  = forEach l2 (i + Z.of_nat (List.length l1)) (forEach l1 i s).
Proof.
  revert i s. induction l1 as [|d l1 IH]; intros i s;
    cbn [app forEach List.length].
  - rewrite Z.add_0_r. reflexivity.
  - rewrite IH. f_equal. lia.
Qed.

Lemma forEach_index_sums hd :
  let s := forEach hd 0 (mkSums zero zero zero zero) in
  (sumX s, sumX2 s) = index_sums (List.length hd).
Proof.
  induction hd as [|d hd IH] using rev_ind; [reflexivity|].
  cbv zeta in *. rewrite forEach_app, length_app. cbn [List.length forEach].
  rewrite Nat.add_1_r. cbn [index_sums]. rewrite <- IH.
  cbn [accumulate sumX sumX2]. rewrite Z.add_0_l. reflexivity.
Qed.

Lemma same_number_eq x y : same_number x y = true -> x = y.
Proof.
  destruct x as [s|s| |s m e], y as [s'|s'| |s' m' e']; cbn [same_number];
    try discriminate; trivial.
  - intros H. apply Bool.eqb_prop in H. congruence.
  - intros H. apply Bool.eqb_prop in H. congruence.
  - rewrite !andb_true_iff. intros [[H1 H2] H3].
    apply Bool.eqb_prop in H1. apply Pos.eqb_eq in H2. apply Z.eqb_eq in H3.
    congruence.
Qed.

Lemma denominators_exact_sound count n k :
  denominators_exact (Z.of_nat n) count
    (fst (index_sums n)) (snd (index_sums n)) = true ->
  (n <= k < n + count)%nat -> (10 <= k)%nat ->
  denominator_exact (Z.of_nat k) (fst (index_sums k)) (snd (index_sums k))
  = true.
Proof.
  revert n. induction count as [|c IH]; intros n H Hk H10; [lia|].
  cbn [denominators_exact] in H. apply andb_true_iff in H.
  destruct H as [H1 H2].
  destruct (Nat.eq_dec n k) as [->|N].
  - apply orb_true_iff in H1. destruct H1 as [H1 | H1]; trivial.
    apply Z.ltb_lt in H1. lia.
  - apply (IH (S n)); [|lia|trivial].
    replace (Z.of_nat (S n)) with (Z.of_nat n + 1) by lia.
    cbn [index_sums]. destruct (index_sums n) as [sx sx2]. exact H2.
Qed.

Lemma denominators_exact_12000 :
  denominators_exact 0 (Z.to_nat 12001) zero zero = true.
Proof. vm_compute. reflexivity. Qed.

Lemma div_by_zero x s : isFinite (div x (S754_zero s)) = false.
Proof. destruct x as [?|?| |? ? ?]; reflexivity. Qed.

End IndexSums.

(* ================================================================== *)
(** * Properties of the aligner and of the forecaster *)

Section Sortedness.

Variable LocalTZA : Z -> bool -> Z.
Variable host_parse : string -> option Z.

Lemma new_Date_ISO_date t :
  Z.abs t <= maxTime ->
  new_Date host_parse (ISO_date t) = Some (Day t * msPerDay).
Proof.
  intros R. unfold new_Date, Date_parse, ISO_date.
  rewrite (parse_date_chars t R). unfold TimeClip.
  apply Day_range in R.
  replace (Z.abs (Day t * msPerDay) <=? maxTime) with true; trivial.
  symmetry. apply Z.leb_le. unfold msPerDay, maxTime. lia.
Qed.

Lemma shifted_le t0 i j :
  plausible_zone LocalTZA -> i <= j ->
  shifted LocalTZA t0 i <= shifted LocalTZA t0 j.
Proof.
  intros [_ V] L. unfold shifted, UTC.
  destruct (Z.eq_dec i j) as [->|N]; [lia|].
  pose proof (V (LocalTime LocalTZA t0 + j * msPerDay)
                (LocalTime LocalTZA t0 + i * msPerDay)).
  unfold msPerDay in *. lia.
Qed.

Lemma Day_le s t : s <= t -> Day s * msPerDay <= Day t * msPerDay.
Proof.
  intros L. unfold Day, msPerDay.
  pose proof (Z.div_le_mono s t 86400000 ltac:(lia) L). lia.
Qed.

Lemma StronglySorted_map_seq {A} (R : A -> A -> Prop) (f : nat -> A) a n :
  (forall i j, (a <= i < j)%nat -> (j < a + n)%nat -> R (f i) (f j)) ->
  StronglySorted R (map f (seq a n)).
Proof.
  revert a. induction n as [|n IH]; intros a H; cbn [seq map].
  - constructor.
  - constructor.
    + apply IH. intros i j Hi Hj. apply H; lia.
    + apply Forall_forall. intros x Hx. apply in_map_iff in Hx.
      destruct Hx as (j & <- & Hj). apply in_seq in Hj. apply H; lia.
Qed.

Lemma forecast_dates_sorted hd t0 h :
  plausible_zone LocalTZA ->
  Z.abs t0 + (h + 2) * msPerDay <= maxTime ->
  StronglySorted (date_le host_parse)
    (map ForecastRecord.date
         (map (forecastRecord LocalTZA hd t0) (counters h))).
Proof.
  intros Z R. unfold counters. rewrite !map_map.
  cbn [forecastRecord ForecastRecord.date].
  apply StronglySorted_map_seq. intros i j Hi Hj.
  exists (Day (shifted LocalTZA t0 (1 + Z.of_nat i)) * msPerDay),
         (Day (shifted LocalTZA t0 (1 + Z.of_nat j)) * msPerDay).
  repeat split.
  - apply new_Date_ISO_date, shifted_range with (h := h); trivial. lia.
  - apply new_Date_ISO_date, shifted_range with (h := h); trivial. lia.
  - apply Day_le, shifted_le; trivial. lia.
Qed.

End Sortedness.

Section ForecastValues.

Variable LocalTZA : Z -> bool -> Z.
Variable host_parse : string -> option Z.



(** The fit reads the [cases] of the points and nothing else. *)
Lemma history_of_cases hd cs :
  map HistoryPoint.cases hd = cs ->
  fit hd = fit (map (HistoryPoint.mk EmptyString) cs)
  /\ List.length hd = List.length cs.
Proof.
  intros <-. split; [|rewrite length_map; reflexivity].
  unfold fit. rewrite !length_map.
  assert (E : forall l i s,
             forEach (map (HistoryPoint.mk EmptyString)
                          (map HistoryPoint.cases l)) i s
             = forEach l i s).
  { induction l as [|d l IH]; intros i s; cbn [map forEach]; [reflexivity|].
    rewrite IH. reflexivity. }
  rewrite E. reflexivity.
Qed.

End ForecastValues.

Section FixedOffset.

Variable host_parse : string -> option Z.

Lemma plausible_fixed_offset c :
  Z.abs c <= msPerDay -> plausible_zone (fixed_offset c).
Proof. intros H. split; intros; unfold fixed_offset, msPerDay in *; lia. Qed.

Lemma shifted_fixed_offset c t0 i :
  shifted (fixed_offset c) t0 i = t0 + i * msPerDay.
Proof. unfold shifted, UTC, LocalTime, fixed_offset. lia. Qed.

(** On a host whose offset from UTC never changes, the [k]-th forecast
    date is the [k]-th day after the last date of the history. *)
Lemma forecast_dates_fixed_offset c hd last t0 h :
  Z.abs c <= msPerDay ->
  (10 <= List.length hd)%nat ->
  nth_error hd (List.length hd - 1) = Some last ->
  new_Date host_parse (HistoryPoint.date last) = Some t0 ->
  Z.abs t0 + (h + 2) * msPerDay <= maxTime ->
  exists l,
    forecastData (fixed_offset c) host_parse (Some hd) h = Normal l
    /\ map ForecastRecord.date l
       = map (fun k => civil_string (Nat.iter k tomorrow (civil_of_time t0)))
             (seq 1 (Z.to_nat h)).
Proof.
  intros Hc Hn Hl Ht Hr. eexists. split.
  - apply forecastData_Normal with (last := last) (t0 := t0); trivial.
    intros i Hi. apply shifted_range with (h := h); trivial.
    apply plausible_fixed_offset, Hc.
  - unfold counters. rewrite <- seq_shift, !map_map.
    apply map_ext. intros k. cbn [forecastRecord ForecastRecord.date].
    rewrite shifted_fixed_offset, ISO_date_civil, <- civil_after_days.
    do 2 f_equal. lia.
Qed.

(** The ISO string of a date that exists is read as midnight UTC of that
    date. *)
Lemma new_Date_civil_string y m d :
  civil_valid (y, m, d) ->
  Z.abs (MakeDay y (m - 1) d * msPerDay) <= maxTime ->
  new_Date host_parse (civil_string (y, m, d))
  = Some (MakeDay y (m - 1) d * msPerDay)
  /\ civil_of_time (MakeDay y (m - 1) d * msPerDay) = (y, m, d).
Proof.
  intros V R. set (t := MakeDay y (m - 1) d * msPerDay) in *.
  assert (D : Day t = MakeDay y (m - 1) d).
  { subst t. unfold Day, msPerDay. apply Z.div_mul. lia. }
  pose proof (civil_of_time_unique t y m d V D) as C.
  split; [|exact C].
  rewrite <- C, <- ISO_date_civil, new_Date_ISO_date by exact R.
  rewrite D. reflexivity.
Qed.

(** X7. The same, from the spelling of the last date: on a host whose
    offset never changes, a history that ends on the date [(y, m, d)] is
    followed by the [h] days after that date, one by one, over the ends
    of months and years. *)
Lemma forecast_dates_after_last c hd last y m d h :
  Z.abs c <= msPerDay ->
  (10 <= List.length hd)%nat ->
  nth_error hd (List.length hd - 1) = Some last ->
  HistoryPoint.date last = civil_string (y, m, d) ->
  civil_valid (y, m, d) ->
  Z.abs (MakeDay y (m - 1) d * msPerDay) + (h + 2) * msPerDay <= maxTime ->
  0 <= h ->
  exists l,
    forecastData (fixed_offset c) host_parse (Some hd) h = Normal l
    /\ map ForecastRecord.date l
       = map (fun k => civil_string (Nat.iter k tomorrow (y, m, d)))
             (seq 1 (Z.to_nat h)).
Proof.
  intros Hc Hn Hl Hs V R Hh.
  destruct (new_Date_civil_string y m d V) as [P C].
  { unfold msPerDay in *. lia. }
  rewrite <- C.
  apply forecast_dates_fixed_offset with (last := last); trivial.
  rewrite Hs. exact P.
Qed.

End FixedOffset.

(** The example of the specification: after 2021-01-30 come 2021-01-31,
    2021-02-01 and 2021-02-02, here on a host at UTC+05:30. *)
Lemma forecast_dates_january :
  exists l,
    forecastData (fixed_offset 19800000) ISO_only (Some linear_history) 3
    = Normal l
    /\ map ForecastRecord.date l
       = ["2021-01-31"; "2021-02-01"; "2021-02-02"]%string.
Proof. eexists. split; vm_compute; reflexivity. Qed.

(** The aligner sorts by date, not by spelling: a year past 9999 is
    written with a leading [+] and still comes last. *)
Lemma align_sample :
  map AlignedRecord.date
      (processHistoricalData ISO_only (Some sample_cases) None
                             (Some sample_vaccines))
  = ["2021-01-01"; "2021-01-02"; "2021-01-03"; "+010000-01-01"]%string.
Proof. vm_compute. reflexivity. Qed.

(* ================================================================== *)
(** * The claims *)

Section Claims.

Variable LocalTZA : Z -> bool -> Z.
Variable host_parse : string -> option Z.

(** C1. The dates of the aligned sequence are exactly the keys of the
    series that are present, none of them twice; the sequence has as
    many records as there are distinct keys; and three absent series
    give the empty sequence. *)
Theorem align_dates_are_the_union c r v :
  (forall k,
      In k (map AlignedRecord.date (processHistoricalData host_parse c r v))
      <-> In k (all_keys c r v))
  /\ NoDup (map AlignedRecord.date (processHistoricalData host_parse c r v))
  /\ List.length (processHistoricalData host_parse c r v)
     = List.length (nodup string_dec (all_keys c r v))
  /\ processHistoricalData host_parse None None None = [].
Proof.
  split; [|split; [|split]].
  - intros k. apply aligned_date_In.
  - rewrite aligned_dates. apply new_Set_NoDup.
  - rewrite <- (length_map AlignedRecord.date).
    apply Permutation_length, NoDup_Permutation.
    + rewrite aligned_dates. apply new_Set_NoDup.
    + apply NoDup_nodup.
    + intros k. rewrite aligned_date_In, nodup_In. reflexivity.
  - reflexivity.
Qed.

(** C2. When every key denotes a date, the aligned sequence is sorted
    by the time values of its dates (the order of the calendar, not of
    the spelling); and on a host whose offset from UTC varies by a day
    at most, the forecast of a history of ten points or more that ends
    on a valid date is returned and is sorted by date as well. *)
Theorem align_and_forecast_sorted c r v hd last t0 h :
  Forall (valid_date host_parse) (all_keys c r v) ->
  plausible_zone LocalTZA ->
  (10 <= List.length hd)%nat ->
  nth_error hd (List.length hd - 1) = Some last ->
  new_Date host_parse (HistoryPoint.date last) = Some t0 ->
  Z.abs t0 + (h + 2) * msPerDay <= maxTime ->
  StronglySorted (date_le host_parse)
    (map AlignedRecord.date (processHistoricalData host_parse c r v))
  /\ exists l,
      forecastData LocalTZA host_parse (Some hd) h = Normal l
      /\ StronglySorted (date_le host_parse) (map ForecastRecord.date l).
Proof.
  intros Hk Hz Hn Hl Ht Hr. split.
  - rewrite aligned_dates. apply new_Set_sorted, Array_sort_sorted, Hk.
  - eexists. split.
    + apply forecastData_Normal with (last := last) (t0 := t0); trivial.
      intros i Hi. apply shifted_range with (h := h); trivial.
    + apply forecast_dates_sorted; trivial.
Qed.

(** C3. For series whose keys name no property of [Object.prototype]
    (no date does) and whose values are ordinary Numbers (any but NaN and
    [-0], which [|| 0] turns into [0]), each field of an aligned record is
    the value its series holds at the record's date, or 0 when the series
    is absent or lacks the date; so a date that only one series has leaves
    the two other fields at 0. *)
Theorem align_zero_fill c r v rec :
  Forall own_key (all_keys c r v) ->
  metric_series c -> metric_series r -> metric_series v ->
  In rec (processHistoricalData host_parse c r v) ->
  (AlignedRecord.cases rec = value_at c (AlignedRecord.date rec)
   /\ AlignedRecord.recovered rec = value_at r (AlignedRecord.date rec)
   /\ AlignedRecord.vaccines rec = value_at v (AlignedRecord.date rec))
  /\ (~ In (AlignedRecord.date rec) (Object_keys (or_empty c)) ->
      AlignedRecord.cases rec = zero)
  /\ (~ In (AlignedRecord.date rec) (Object_keys (or_empty r)) ->
      AlignedRecord.recovered rec = zero)
  /\ (~ In (AlignedRecord.date rec) (Object_keys (or_empty v)) ->
      AlignedRecord.vaccines rec = zero).
Proof.
  intros _ Hc Hr Hv Hin. unfold processHistoricalData in Hin.
  apply in_map_iff in Hin. destruct Hin as (k & <- & _).
  cbn [AlignedRecord.date AlignedRecord.cases AlignedRecord.recovered
       AlignedRecord.vaccines].
  rewrite !field_value by assumption.
  repeat split; intros H.
  - rewrite <- (field_value c k Hc). exact (field_absent c k H).
  - rewrite <- (field_value r k Hr). exact (field_absent r k H).
  - rewrite <- (field_value v k Hv). exact (field_absent v k H).
Qed.

(** C4. A history of fewer than ten points gives the empty forecast,
    whatever the horizon, and nothing is thrown. *)
Theorem forecast_floor hd h :
  (List.length hd < 10)%nat ->
  forecastData LocalTZA host_parse (Some hd) h = Normal [].
Proof.
  intros H. unfold forecastData.
  apply Nat.ltb_lt in H. rewrite H. reflexivity.
Qed.

(** C5. For a history of ten points or more that ends on a valid date,
    and a horizon [h >= 0] that stays within the range of Date, the
    forecast has exactly [h] records, each with [isForecast = true]. *)
Theorem forecast_length hd last t0 h :
  plausible_zone LocalTZA ->
  (10 <= List.length hd)%nat ->
  nth_error hd (List.length hd - 1) = Some last ->
  new_Date host_parse (HistoryPoint.date last) = Some t0 ->
  0 <= h ->
  Z.abs t0 + (h + 2) * msPerDay <= maxTime ->
  exists l,
    forecastData LocalTZA host_parse (Some hd) h = Normal l
    /\ Z.of_nat (List.length l) = h
    /\ Forall (fun r => ForecastRecord.isForecast r = true) l.
Proof.
  intros Hz Hn Hl Ht Hh Hr. eexists. split; [|split].
  - apply forecastData_Normal with (last := last) (t0 := t0); trivial.
    intros i Hi. apply shifted_range with (h := h); trivial.
  - unfold counters. rewrite !length_map, length_seq. lia.
  - apply Forall_forall. intros x Hx. apply in_map_iff in Hx.
    destruct Hx as (i & <- & _). reflexivity.
Qed.

(** C6, as amended. For ten points with [cases i = 100 + 10 * i] the
    fitted line is [y = 10 x + 100], and the forecast of horizon 3, taken
    at [x = 10, 11, 12], holds the values 200, 210 and 220. *)
Theorem forecast_linear_history hd last t0 :
  plausible_zone LocalTZA ->
  map HistoryPoint.cases hd = linear_values ->
  nth_error hd 9 = Some last ->
  new_Date host_parse (HistoryPoint.date last) = Some t0 ->
  Z.abs t0 + 5 * msPerDay <= maxTime ->
  exists l,
    forecastData LocalTZA host_parse (Some hd) 3 = Normal l
    /\ map ForecastRecord.cases l = [of_Z 200; of_Z 210; of_Z 220].
Proof.
  intros Hz Hc Hl Ht Hr.
  destruct (history_of_cases hd _ Hc) as [Hfit Hlen].
  change (List.length linear_values) with 10%nat in Hlen.
  eexists. split.
  - apply forecastData_Normal with (last := last) (t0 := t0); trivial.
    + rewrite Hlen. lia.
    + rewrite Hlen. exact Hl.
    + intros i Hi. apply shifted_range with (h := 3); trivial.
  - rewrite map_map. unfold forecastRecord. cbn [ForecastRecord.cases].
    rewrite Hfit, Hlen. vm_compute. reflexivity.
Qed.


(** C10. An absent history gives the empty forecast for every horizon,
    as a history of fewer than ten points does; nothing is thrown. *)
Theorem forecast_absent_history h :
  forecastData LocalTZA host_parse None h = Normal []
  /\ forall hd, (List.length hd < 10)%nat ->
       forecastData LocalTZA host_parse (Some hd) h
       = forecastData LocalTZA host_parse None h.
Proof.
  split; [reflexivity|]. intros hd H. unfold forecastData.
  apply Nat.ltb_lt in H. rewrite H. reflexivity.
Qed.

End Claims.

(** C6, the claim as stated. The forecast of the linear history does not
    hold 130, 140 and 150. *)
Lemma forecast_linear_history_not_130 :
  exists l,
    forecastData (fixed_offset 0) ISO_only (Some linear_history) 3 = Normal l
    /\ map ForecastRecord.cases l <> [of_Z 130; of_Z 140; of_Z 150].
Proof.
  eexists. split; [vm_compute; reflexivity|]. vm_compute. discriminate.
Qed.

(** C7. On a host in US Eastern time, a history that ends on 2021-03-13
    is followed by 2021-03-14 twice and then 2021-03-15, not by the 14th,
    15th and 16th: [setDate] moves the local day, the clock goes forward
    an hour on the 14th, and [toISOString] then reads 23:00 UTC of the day
    before. *)
Theorem forecast_dates_across_dst :
  exists l,
    forecastData us_eastern_2021 ISO_only (Some history_to_13_march) 3
    = Normal l
    /\ map ForecastRecord.date l
       = ["2021-03-14"; "2021-03-14"; "2021-03-15"]%string.
Proof. eexists. split; vm_compute; reflexivity. Qed.

(** C9, as amended. The slope is a plain division: by a zero denominator
    it gives NaN or an infinity, and throws nothing.  In [forecastData]
    the denominator is never zero: for the [n] points of a history, from
    10 to 12000, it is the positive Number [n^2 (n^2 - 1) / 12]. *)
Theorem slope_denominator_nonzero hd :
  10 <= Z.of_nat (List.length hd) <= 12000 ->
  (forall x s, isFinite (div x (S754_zero s)) = false)
  /\ exists m e,
      denominator (of_Z (Z.of_nat (List.length hd)))
        (sumX (forEach hd 0 (mkSums zero zero zero zero)))
        (sumX2 (forEach hd 0 (mkSums zero zero zero zero)))
      = S754_finite false m e
      /\ S754_finite false m e
         = of_Z (Z.of_nat (List.length hd) * Z.of_nat (List.length hd)
                 * (Z.of_nat (List.length hd) * Z.of_nat (List.length hd) - 1)
                 / 12).
Proof.
  intros Hn. split; [exact div_by_zero|].
  pose proof (forEach_index_sums hd) as E. cbv zeta in E.
  replace (sumX (forEach hd 0 (mkSums zero zero zero zero)))
    with (fst (index_sums (List.length hd))) by (rewrite <- E; reflexivity).
  replace (sumX2 (forEach hd 0 (mkSums zero zero zero zero)))
    with (snd (index_sums (List.length hd))) by (rewrite <- E; reflexivity).
  pose proof (denominators_exact_sound _ 0 (List.length hd)
                denominators_exact_12000 ltac:(lia) ltac:(lia)) as H.
  unfold denominator_exact in H. cbv zeta in H.
  apply andb_true_iff in H. destruct H as [H1 H2].
  apply same_number_eq in H1.
  destruct (denominator _ _ _) as [?|?| |[|] m e]; try discriminate H2.
  exists m, e. split; [reflexivity | exact H1].
Qed.

(** C9, the claim as stated. Ten points that all lie at [x = 1] make the
    denominator zero, and the slope is then the NaN of [0 / 0]: nothing
    guards the division. *)
Lemma slope_divides_by_zero :
  denominator (of_Z 10) (of_Z 10) (of_Z 10) = zero
  /\ slope (of_Z 10) (of_Z 1450) (of_Z 10) (of_Z 1450) (of_Z 10) = NaN.
Proof. split; vm_compute; reflexivity. Qed.


(* ================================================================== *)
(** * The claims on sample inputs *)

Lemma align_and_forecast_sorted_witness :
  StronglySorted (date_le ISO_only)
    (map AlignedRecord.date
         (processHistoricalData ISO_only (Some sample_cases) None
                                (Some sample_vaccines)))
  /\ exists l,
      forecastData us_eastern_2021 ISO_only (Some history_to_13_march) 14
      = Normal l
      /\ StronglySorted (date_le ISO_only) (map ForecastRecord.date l).
Proof.
  apply (align_and_forecast_sorted us_eastern_2021 ISO_only
           (Some sample_cases) None (Some sample_vaccines)
           history_to_13_march
           (HistoryPoint.mk "2021-03-13" (of_Z 190)) 1615593600000 14).
  - repeat constructor; vm_compute; discriminate.
  - split; intros; unfold us_eastern_2021, msPerDay;
      repeat match goal with
             | |- context [if ?c then _ else _] => destruct c
             end; lia.
  - simpl. lia.
  - reflexivity.
  - vm_compute. reflexivity.
  - unfold msPerDay, maxTime. lia.
Defined.

Lemma align_zero_fill_witness :
  (of_Z 5 = value_at (Some sample_cases) "2021-01-02"
   /\ zero = value_at None "2021-01-02"
   /\ zero = value_at (Some sample_vaccines) "2021-01-02")
  /\ (~ In "2021-01-02"%string (Object_keys sample_cases) -> of_Z 5 = zero)
  /\ (~ In "2021-01-02"%string (@nil string) -> zero = zero)
  /\ (~ In "2021-01-02"%string (Object_keys sample_vaccines) -> zero = zero).
Proof.
  apply (align_zero_fill ISO_only (Some sample_cases) None
           (Some sample_vaccines)
           (AlignedRecord.mk "2021-01-02" (of_Z 5) zero zero)).
  - repeat constructor; intros H; cbn in H;
      repeat (destruct H as [H | H]; [discriminate H|]); exact H.
  - repeat constructor.
  - constructor.
  - repeat constructor.
  - vm_compute. right. left. reflexivity.
Defined.

Lemma forecast_floor_witness :
  forecastData (fixed_offset 0) ISO_only (Some (firstn 9 linear_history)) 14
  = Normal [].
Proof. apply forecast_floor. simpl. lia. Defined.

Lemma forecast_length_witness :
  exists l,
    forecastData (fixed_offset 19800000) ISO_only (Some linear_history) 14
    = Normal l
    /\ Z.of_nat (List.length l) = 14
    /\ Forall (fun r => ForecastRecord.isForecast r = true) l.
Proof.
  apply (forecast_length (fixed_offset 19800000) ISO_only linear_history
           (HistoryPoint.mk "2021-01-30" (of_Z 190)) 1611964800000 14).
  - split; intros; unfold fixed_offset, msPerDay; lia.
  - simpl. lia.
  - reflexivity.
  - vm_compute. reflexivity.
  - lia.
  - unfold msPerDay, maxTime. lia.
Defined.

Lemma forecast_linear_history_witness :
  exists l,
    forecastData (fixed_offset 0) ISO_only (Some linear_history) 3 = Normal l
    /\ map ForecastRecord.cases l = [of_Z 200; of_Z 210; of_Z 220].
Proof.
  apply (forecast_linear_history (fixed_offset 0) ISO_only linear_history
           (HistoryPoint.mk "2021-01-30" (of_Z 190)) 1611964800000).
  - split; intros; unfold fixed_offset, msPerDay; lia.
  - reflexivity.
  - reflexivity.
  - vm_compute. reflexivity.
  - unfold msPerDay, maxTime. lia.
Defined.


Lemma slope_denominator_nonzero_witness :
  (forall x s, isFinite (div x (S754_zero s)) = false)
  /\ exists m e,
      denominator (of_Z 10)
        (sumX (forEach linear_history 0 (mkSums zero zero zero zero)))
        (sumX2 (forEach linear_history 0 (mkSums zero zero zero zero)))
      = S754_finite false m e
      /\ S754_finite false m e = of_Z (10 * 10 * (10 * 10 - 1) / 12).
Proof.
  apply (slope_denominator_nonzero linear_history). simpl. lia.
Defined.

(* ================================================================== *)
(** * The outcomes of a forecast *)

(** ** Loops that throw *)

Section LoopOutcomes.

Context {R : Type}.

(** A loop that throws has run a pass that throws. *)
Lemma for_loop_Throw (body : Z -> Completion R) count i acc e :
  for_loop body count i acc = Throw e ->
  exists k, (k < count)%nat /\ body (i + Z.of_nat k) = Throw e.
Proof.
  revert i acc. induction count as [|c IH]; intros i acc H; cbn [for_loop] in H.
  - discriminate H.
  - destruct (body i) as [r0|e0] eqn:E.
    + apply IH in H. destruct H as (k & Hk & Hb). exists (S k). split; [lia|].
      replace (i + Z.of_nat (S k)) with (i + 1 + Z.of_nat k) by lia. exact Hb.
    + injection H as ->. exists 0%nat. split; [lia|].
      rewrite Z.add_0_r. exact E.
Qed.

(** A loop that ends normally has pushed one record per pass, the
    [k]-th being that of counter [i + k]. *)
Lemma for_loop_Normal_inv (body : Z -> Completion R) count i acc l :
  for_loop body count i acc = Normal l ->
  exists l',
    l = acc ++ l'
    /\ map (fun k => body (i + Z.of_nat k)) (seq 0 count) = map Normal l'.
Proof.
  revert i acc. induction count as [|c IH]; intros i acc H; cbn [for_loop] in H.
  - injection H as <-. exists []. split; [symmetry; apply app_nil_r|].
    reflexivity.
  - destruct (body i) as [r0|e] eqn:E; [|discriminate H].
    apply IH in H. destruct H as (l' & -> & Hl').
    exists (r0 :: l'). split; [rewrite <- app_assoc; reflexivity|].
    cbn [seq map]. rewrite Z.add_0_r, E. f_equal.
    rewrite <- Hl', <- seq_shift, map_map.
    apply map_ext. intros k. f_equal. lia.
Qed.

End LoopOutcomes.

(** ** One pass of the forecasting loop *)

Section ForecastOutcomes.

Variable LocalTZA : Z -> bool -> Z.
Variable host_parse : string -> option Z.

Lemma TimeClip_Some x t : TimeClip x = Some t -> Z.abs t <= maxTime.
Proof.
  unfold TimeClip. destruct (Z.leb_spec (Z.abs x) maxTime) as [L|L];
    intros H; [|discriminate H].
  injection H as <-. exact L.
Qed.

(** A date that [setDate] leaves valid is inside the range of time
    values. *)
Lemma setDate_Some tv dt t :
  setDate LocalTZA tv dt = Some t -> Z.abs t <= maxTime.
Proof.
  destruct tv as [t0|], dt as [d|]; cbn [setDate]; try discriminate.
  apply TimeClip_Some.
Qed.

(** One pass of the loop either throws the RangeError of [toISOString]
    or pushes a record whose date is that of a time value in range. *)
Lemma forecastStep_outcome lastDate m b n i :
  forecastStep LocalTZA lastDate m b n i = Throw RangeError
  \/ exists t,
      Z.abs t <= maxTime
      /\ forecastStep LocalTZA lastDate m b n i
         = Normal {| ForecastRecord.date := ISO_date t;
                     ForecastRecord.cases := forecastedCases m b n i;
                     ForecastRecord.isForecast := true |}.
Proof.
  unfold forecastStep.
  destruct (setDate LocalTZA lastDate _) as [t|] eqn:E.
  - right. exists t. split; [exact (setDate_Some _ _ _ E)|].
    destruct (toISOString_date t) as (iso & -> & ->). reflexivity.
  - left. reflexivity.
Qed.

(** On an invalid date the pass throws. *)
Lemma forecastStep_invalid m b n i :
  forecastStep LocalTZA None m b n i = Throw RangeError.
Proof. reflexivity. Qed.

(** What a forecast over ten points or more comes to: the loop over the
    counters, on the fitted line and the last date. *)
Lemma forecastData_loop hd h :
  (10 <= List.length hd)%nat ->
  exists last,
    nth_error hd (List.length hd - 1) = Some last
    /\ forecastData LocalTZA host_parse (Some hd) h
       = for_loop (forecastStep LocalTZA
                     (new_Date host_parse (HistoryPoint.date last))
                     (fst (fit hd)) (snd (fit hd))
                     (of_Z (Z.of_nat (List.length hd))))
                  (Z.to_nat h) 1 [].
Proof.
  intros Hn. unfold forecastData.
  replace (List.length hd <? 10)%nat with false
    by (symmetry; apply Nat.ltb_ge; exact Hn).
  destruct (nth_error hd (List.length hd - 1)) as [last|] eqn:E.
  - exists last. split; [reflexivity|]. destruct (fit hd). reflexivity.
  - apply nth_error_None in E. lia.
Qed.

End ForecastOutcomes.

(** ** The fields of a record *)

(** [x || 0] is neither NaN nor [-0]. *)
Lemma or_number_is_ordinary x : ordinary (or_number x zero) = true.
Proof. destruct x as [[[|]|[|]| |[|] m e]|]; reflexivity. Qed.

Lemma ordinary_field (s : option JsObject) k :
  ordinary match s with
           | Some o => or_number (Get o k) zero
           | None => zero
           end = true.
Proof. destruct s; [apply or_number_is_ordinary | reflexivity]. Qed.

(** ** What a forecast returns *)

Lemma map_cons_Normal {A B} (f : A -> Completion B) k ks r l :
  map f (k :: ks) = map Normal (r :: l) ->
  f k = Normal r /\ map f ks = map Normal l.
Proof. intros H. injection H as H1 H2. split; assumption. Qed.

Section MoreOfTheForecast.

Variable LocalTZA : Z -> bool -> Z.
Variable host_parse : string -> option Z.

(** X1. Whatever the three series hold, no field of an aligned record
    is NaN or [-0]: [x || 0] puts [+0] in their place. *)
Theorem align_fields_ordinary c r v rec :
  In rec (processHistoricalData host_parse c r v) ->
  ordinary (AlignedRecord.cases rec) = true
  /\ ordinary (AlignedRecord.recovered rec) = true
  /\ ordinary (AlignedRecord.vaccines rec) = true.
Proof.
  unfold processHistoricalData. intros H. apply in_map_iff in H.
  destruct H as (k & <- & _).
  cbn [AlignedRecord.cases AlignedRecord.recovered AlignedRecord.vaccines].
  repeat split; apply ordinary_field.
Qed.

(** The records of a forecast that is returned: one per counter, with
    the value of the line and a date that [toISOString] gave. *)
Lemma forecastData_records hd h l :
  (10 <= List.length hd)%nat ->
  forecastData LocalTZA host_parse (Some hd) h = Normal l ->
  List.length l = Z.to_nat h
  /\ map ForecastRecord.cases l
     = map (fun i => forecastedCases (fst (fit hd)) (snd (fit hd))
                       (of_Z (Z.of_nat (List.length hd))) i)
           (counters h)
  /\ Forall (fun r => ForecastRecord.isForecast r = true
                      /\ exists t, Z.abs t <= maxTime
                                   /\ ForecastRecord.date r = ISO_date t) l.
Proof.
  intros Hn H.
  destruct (forecastData_loop LocalTZA host_parse hd h Hn) as (last & _ & E).
  rewrite E in H. clear E. apply for_loop_Normal_inv in H.
  destruct H as (l' & -> & Hl'). cbn [app]. unfold counters.
  rewrite map_map.
  set (step := forecastStep LocalTZA _ _ _ _) in *.
  assert (G : forall ks, map (fun k => step (1 + Z.of_nat k)) ks = map Normal l' ->
              List.length l' = List.length ks
              /\ map ForecastRecord.cases l'
                 = map (fun k => forecastedCases (fst (fit hd)) (snd (fit hd))
                                   (of_Z (Z.of_nat (List.length hd)))
                                   (1 + Z.of_nat k)) ks
              /\ Forall (fun r => ForecastRecord.isForecast r = true
                           /\ exists t, Z.abs t <= maxTime
                                        /\ ForecastRecord.date r = ISO_date t) l').
  { clear Hl'. induction l' as [|r l' IH]; intros [|k ks] Hks;
      try discriminate Hks.
    - repeat split. constructor.
    - apply map_cons_Normal in Hks. destruct Hks as [Hr Hks].
      destruct (IH ks Hks) as (IL & IC & IF).
      subst step.
      destruct (forecastStep_outcome LocalTZA
                  (new_Date host_parse (HistoryPoint.date last))
                  (fst (fit hd)) (snd (fit hd))
                  (of_Z (Z.of_nat (List.length hd))) (1 + Z.of_nat k))
        as [T | (t & Ht & N)]; [congruence|].
      rewrite N in Hr. injection Hr as <-.
      cbn [List.length map ForecastRecord.cases]. repeat split.
      + f_equal. exact IL.
      + f_equal. exact IC.
      + constructor; [|exact IF]. split; [reflexivity|].
        exists t. split; [exact Ht | reflexivity]. }
  destruct (G _ Hl') as (GL & GC & GF).
  rewrite length_seq in GL. repeat split; assumption.
Qed.

(** The only exception of a forecast is the RangeError of [toISOString]
    on an invalid date. *)
Lemma forecastData_Throw hist h e :
  forecastData LocalTZA host_parse hist h = Throw e -> e = RangeError.
Proof.
  intros E. destruct hist as [hd|]; [|discriminate E].
  destruct (Nat.leb_spec 10 (List.length hd)) as [Hn | Hn].
  - destruct (forecastData_loop LocalTZA host_parse hd h Hn) as (last & _ & E').
    rewrite E' in E. apply for_loop_Throw in E. destruct E as (k & _ & Hk).
    destruct (forecastStep_outcome LocalTZA
                (new_Date host_parse (HistoryPoint.date last))
                (fst (fit hd)) (snd (fit hd))
                (of_Z (Z.of_nat (List.length hd))) (1 + Z.of_nat k))
      as [T | (t & _ & N)]; congruence.
  - unfold forecastData in E. apply Nat.ltb_lt in Hn. rewrite Hn in E.
    discriminate E.
Qed.

(** A forecast that is returned holds no record for a history of fewer
    than ten points, one record per day otherwise, all flagged. *)
Lemma forecastData_shape hd h l :
  forecastData LocalTZA host_parse (Some hd) h = Normal l ->
  List.length l = (if (List.length hd <? 10)%nat then 0%nat else Z.to_nat h)
  /\ Forall (fun r => ForecastRecord.isForecast r = true) l.
Proof.
  intros E. destruct (Nat.ltb_spec (List.length hd) 10) as [Hn | Hn].
  - unfold forecastData in E. apply Nat.ltb_lt in Hn. rewrite Hn in E.
    injection E as <-. split; [reflexivity | constructor].
  - destruct (forecastData_records hd h l Hn E) as (L & _ & F).
    split; [exact L|]. eapply Forall_impl; [|exact F]. intros r [H _]. exact H.
Qed.


(** X3. A forecast either throws the RangeError of [toISOString], or
    returns: no record for a history of fewer than ten points, and
    otherwise one record per day of the horizon, each flagged
    [isForecast].  It throws nothing else, and it returns no part of a
    forecast. *)
Theorem forecast_throws_or_returns_all hd h :
  forecastData LocalTZA host_parse (Some hd) h = Throw RangeError
  \/ exists l,
      forecastData LocalTZA host_parse (Some hd) h = Normal l
      /\ List.length l
         = (if (List.length hd <? 10)%nat then 0%nat else Z.to_nat h)
      /\ Forall (fun r => ForecastRecord.isForecast r = true) l.
Proof.
  destruct (forecastData LocalTZA host_parse (Some hd) h) as [l|e] eqn:E.
  - right. exists l. split; [reflexivity|]. apply (forecastData_shape hd h l E).
  - left. f_equal. apply (forecastData_Throw _ _ _ E).
Qed.

(** X4. A history of ten points or more whose last date is no date
    makes the forecast throw a RangeError, for a horizon of a day or
    more; for a horizon of no day the forecast is empty. *)
Theorem forecast_invalid_last_date hd last h :
  (10 <= List.length hd)%nat ->
  nth_error hd (List.length hd - 1) = Some last ->
  new_Date host_parse (HistoryPoint.date last) = None ->
  (1 <= h -> forecastData LocalTZA host_parse (Some hd) h = Throw RangeError)
  /\ (h <= 0 -> forecastData LocalTZA host_parse (Some hd) h = Normal []).
Proof.
  intros Hn Hl Hd.
  destruct (forecastData_loop LocalTZA host_parse hd h Hn) as (last' & Hl' & E).
  rewrite Hl in Hl'. injection Hl' as <-. rewrite E, Hd. split; intros Hh.
  - destruct (Z.to_nat h) as [|c] eqn:Ec; [lia|]. reflexivity.
  - replace (Z.to_nat h) with 0%nat by lia. reflexivity.
Qed.

(** X5. Every date of a forecast is an ISO calendar date: [new Date]
    reads it back, on whatever host, as the midnight UTC of a day. *)
Theorem forecast_dates_read_back hist h l r (any_host : string -> option Z) :
  forecastData LocalTZA host_parse hist h = Normal l ->
  In r l ->
  exists day,
    parse_iso_date (ForecastRecord.date r) = Some (day * msPerDay)
    /\ new_Date any_host (ForecastRecord.date r) = Some (day * msPerDay).
Proof.
  intros H Hr. destruct hist as [hd|]; [|injection H as <-; destruct Hr].
  destruct (Nat.leb_spec 10 (List.length hd)) as [Hn | Hn].
  - destruct (forecastData_records hd h l Hn H) as (_ & _ & F).
    rewrite Forall_forall in F. destruct (F r Hr) as (_ & t & Ht & ->).
    exists (Day t). split.
    + apply parse_date_chars, Ht.
    + apply new_Date_ISO_date, Ht.
  - unfold forecastData in H. apply Nat.ltb_lt in Hn. rewrite Hn in H.
    injection H as <-. destruct Hr.
Qed.

End MoreOfTheForecast.

(** X6. The values of a forecast depend on the cases of the history
    and on the horizon only: two histories with the same cases, whatever
    their dates and whatever the hosts, are given the same values. *)
Theorem forecast_values_ignore_dates
    (LocalTZA zone' : Z -> bool -> Z) (host_parse parse' : string -> option Z)
    hd hd' h l l' :
  map HistoryPoint.cases hd = map HistoryPoint.cases hd' ->
  forecastData LocalTZA host_parse (Some hd) h = Normal l ->
  forecastData zone' parse' (Some hd') h = Normal l' ->
  map ForecastRecord.cases l = map ForecastRecord.cases l'.
Proof.
  intros Hc H H'.
  destruct (history_of_cases hd _ eq_refl) as [F L].
  destruct (history_of_cases hd' _ eq_refl) as [F' L'].
  rewrite <- Hc in F', L'. rewrite length_map in L, L'.
  destruct (Nat.leb_spec 10 (List.length hd)) as [Hn | Hn].
  - destruct (forecastData_records _ _ hd h l Hn H) as (_ & C & _).
    assert (Hn' : (10 <= List.length hd')%nat).
    { rewrite <- (length_map HistoryPoint.cases hd'), <- Hc, length_map.
      exact Hn. }
    destruct (forecastData_records _ _ hd' h l' Hn' H') as (_ & C' & _).
    rewrite C, C', F, F'.
    rewrite <- (length_map HistoryPoint.cases hd), Hc, length_map.
    reflexivity.
  - assert (Hn' : (List.length hd' < 10)%nat).
    { rewrite <- (length_map HistoryPoint.cases hd'), <- Hc, length_map.
      exact Hn. }
    unfold forecastData in H, H'.
    apply Nat.ltb_lt in Hn, Hn'. rewrite Hn in H. rewrite Hn' in H'.
    injection H as <-. injection H' as <-. reflexivity.
Qed.

(* ================================================================== *)
(** * The aligner and the order of the keys *)

Section OrderOfKeys.

Variable host_parse : string -> option Z.

(** Two dates, each not after the other, are at the same time. *)
Lemma date_le_antisym a b :
  date_le host_parse a b -> date_le host_parse b a ->
  new_Date host_parse a = new_Date host_parse b.
Proof.
  intros (ta & tb & A & B & L) (tb' & ta' & B' & A' & L').
  rewrite A in A'. rewrite B in B'. injection A' as <-. injection B' as <-.
  rewrite A, B. f_equal. lia.
Qed.

(** There is one way only to list dates in order, each once, when no
    two of them are at the same time. *)
Lemma sorted_dates_unique l1 l2 :
  StronglySorted (date_le host_parse) l1 ->
  StronglySorted (date_le host_parse) l2 ->
  NoDup l1 -> NoDup l2 ->
  (forall k, In k l1 <-> In k l2) ->
  (forall a b, In a l1 -> In b l1 ->
               new_Date host_parse a = new_Date host_parse b -> a = b) ->
  l1 = l2.
Proof.
  intros S1. revert l2. induction S1 as [|x l1 S1 IH F1];
    intros l2 S2 N1 N2 M I.
  - destruct l2 as [|y l2]; [reflexivity|].
    destruct (proj2 (M y) (or_introl eq_refl)).
  - destruct S2 as [|y l2 S2 F2].
    { destruct (proj1 (M x) (or_introl eq_refl)). }
    rewrite Forall_forall in F1, F2.
    assert (E : x = y).
    { destruct (proj1 (M x) (or_introl eq_refl)) as [E | Hx]; [auto|].
      destruct (proj2 (M y) (or_introl eq_refl)) as [E | Hy]; [auto|].
      apply I; [left; reflexivity | right; exact Hy|].
      apply date_le_antisym; auto. }
    subst y. f_equal.
    inversion N1 as [|? ? X1 N1']; subst. inversion N2 as [|? ? X2 N2']; subst.
    apply IH; trivial.
    + intros k. split; intros Hk.
      * destruct (proj1 (M k) (or_intror Hk)) as [<- | H]; [contradiction|exact H].
      * destruct (proj2 (M k) (or_intror Hk)) as [<- | H]; [contradiction|exact H].
    + intros a b Ha Hb. apply I; right; assumption.
Qed.

Lemma aligned_fields c r v :
  processHistoricalData host_parse c r v
  = map (fun date =>
           {| AlignedRecord.date := date;
              AlignedRecord.cases := field_at c date;
              AlignedRecord.recovered := field_at r date;
              AlignedRecord.vaccines := field_at v date |})
        (new_Set (Array_sort (compareDates host_parse) (all_keys c r v))).
Proof. reflexivity. Qed.

(** X2. The aligned records do not depend on the order in which the
    series list their keys, nor on which series lists a date: series
    with the same keys and the same fields give the same records, in
    the same order, when every key is a date and no two keys are at the
    same time. *)
Theorem align_order_independent c r v c' r' v' :
  Forall (valid_date host_parse) (all_keys c r v) ->
  (forall a b, In a (all_keys c r v) -> In b (all_keys c r v) ->
               new_Date host_parse a = new_Date host_parse b -> a = b) ->
  (forall k, In k (all_keys c r v) <-> In k (all_keys c' r' v')) ->
  (forall k, field_at c k = field_at c' k
             /\ field_at r k = field_at r' k
             /\ field_at v k = field_at v' k) ->
  processHistoricalData host_parse c r v
  = processHistoricalData host_parse c' r' v'.
Proof.
  intros V I M Fd. rewrite !aligned_fields.
  assert (V' : Forall (valid_date host_parse) (all_keys c' r' v')).
  { rewrite Forall_forall in *. intros k Hk. apply V, M, Hk. }
  assert (D : new_Set (Array_sort (compareDates host_parse) (all_keys c r v))
              = new_Set (Array_sort (compareDates host_parse)
                           (all_keys c' r' v'))).
  { apply sorted_dates_unique.
    - apply new_Set_sorted, Array_sort_sorted, V.
    - apply new_Set_sorted, Array_sort_sorted, V'.
    - apply new_Set_NoDup.
    - apply new_Set_NoDup.
    - intros k. rewrite <- !aligned_dates, !aligned_date_In. apply M.
    - intros a b Ha Hb.
      rewrite <- aligned_dates, aligned_date_In in Ha, Hb. apply I; assumption. }
  rewrite D. apply map_ext. intros k.
  destruct (Fd k) as (-> & -> & ->). reflexivity.
Qed.

End OrderOfKeys.

(* ================================================================== *)
(** * The comparison chart *)

(** ** Sorting by a key *)

Section SortByKey.

Context {A B : Type}.
Variable key : A -> B.
Variable comparefn : B -> B -> option Z.

Lemma sort_insert_map x l :
  map key (sort_insert (fun a b => comparefn (key a) (key b)) x l)
  = sort_insert comparefn (key x) (map key l).
Proof.
  induction l as [|y l IH]; [reflexivity|].
  cbn [sort_insert map]. unfold SortCompare.
  destruct (0 <? match comparefn (key x) (key y) with
                 | Some v => v
                 | None => 0
                 end); cbn [map]; [rewrite IH|]; reflexivity.
Qed.

(** Sorting records by a key sorts their keys. *)
Lemma Array_sort_map l :
  map key (Array_sort (fun a b => comparefn (key a) (key b)) l)
  = Array_sort comparefn (map key l).
Proof.
  induction l as [|x l IH]; [reflexivity|].
  cbn [Array_sort map]. rewrite sort_insert_map, IH. reflexivity.
Qed.

End SortByKey.

(** ** The keys of the columns *)

Lemma list_ascii_of_string_app a b :
  list_ascii_of_string (a ++ b)
  = (list_ascii_of_string a ++ list_ascii_of_string b)%list.
Proof.
  induction a as [|c a IH]; [reflexivity|].
  cbn [String.append list_ascii_of_string app]. rewrite IH. reflexivity.
Qed.

Lemma list_ascii_of_string_inj a b :
  list_ascii_of_string a = list_ascii_of_string b -> a = b.
Proof.
  intros H. rewrite <- (string_of_list_ascii_of_string a),
              <- (string_of_list_ascii_of_string b), H. reflexivity.
Qed.

(** Two names with the same ending are the same name. *)
Lemma append_inj_l (a b s : string) : (a ++ s = b ++ s)%string -> a = b.
Proof.
  intros H. apply (f_equal list_ascii_of_string) in H.
  rewrite !list_ascii_of_string_app in H.
  apply app_inv_tail in H. apply list_ascii_of_string_inj, H.
Qed.

(** The end of a string that ends in [s], last character first. *)
Lemma rev_append (a s : string) :
  rev (list_ascii_of_string (a ++ s))
  = (rev (list_ascii_of_string s) ++ rev (list_ascii_of_string a))%list.
Proof. rewrite list_ascii_of_string_app. apply rev_app_distr. Qed.

Ltac endings_differ :=
  let H := fresh in
  intros H; apply (f_equal (fun x => rev (list_ascii_of_string x))) in H;
  rewrite !rev_append in H; cbn in H; discriminate H.

Lemma Cases_Vaccinations (a b : string) :
  (a ++ " Cases" <> b ++ " Vaccinations")%string.
Proof. endings_differ. Qed.

Lemma Cases_Recovered (a b : string) :
  (a ++ " Cases" <> b ++ " Recovered")%string.
Proof. endings_differ. Qed.

Lemma Vaccinations_Recovered (a b : string) :
  (a ++ " Vaccinations" <> b ++ " Recovered")%string.
Proof. endings_differ. Qed.

(** Two countries share no column. *)
Lemma column_keys_disjoint a b k :
  a <> b -> In k (column_keys a) -> ~ In k (column_keys b).
Proof.
  intros N Ha Hb. unfold column_keys in *. cbn [In] in Ha, Hb.
  destruct Ha as [<- | [<- | [<- | []]]];
    destruct Hb as [Hb | [Hb | [Hb | []]]];
    try (apply append_inj_l in Hb; congruence);
    revert Hb;
    first [ apply Cases_Vaccinations | apply Cases_Recovered
          | apply Vaccinations_Recovered
          | apply not_eq_sym; first [ apply Cases_Vaccinations
                                    | apply Cases_Recovered
                                    | apply Vaccinations_Recovered ] ].
Qed.

(** ** Reading what was written *)

Lemma Get_Put_same o k v : Get (Put o k v) k = Some v.
Proof.
  induction o as [|[k' v'] o IH]; cbn [Put Get].
  - rewrite String.eqb_refl. reflexivity.
  - destruct (String.eqb k k') eqn:E; cbn [Get]; rewrite E; auto.
Qed.

Lemma Get_Put_other o k v k' : k' <> k -> Get (Put o k v) k' = Get o k'.
Proof.
  intros N. induction o as [|[k0 v0] o IH]; cbn [Put Get].
  - apply String.eqb_neq in N. rewrite N. reflexivity.
  - destruct (String.eqb k k0) eqn:E; cbn [Get].
    + apply String.eqb_eq in E. subst k0.
      apply String.eqb_neq in N. rewrite N. reflexivity.
    + rewrite IH. reflexivity.
Qed.

(** The columns that [set_columns] writes hold the record's values. *)
Lemma set_columns_own o country d :
  Get (set_columns o country d) (country ++ " Cases")
  = Some (AlignedRecord.cases d)
  /\ Get (set_columns o country d) (country ++ " Vaccinations")
     = Some (AlignedRecord.vaccines d)
  /\ Get (set_columns o country d) (country ++ " Recovered")
     = Some (AlignedRecord.recovered d).
Proof.
  unfold set_columns. repeat split.
  - rewrite Get_Put_other by apply Cases_Recovered.
    rewrite Get_Put_other by apply Cases_Vaccinations.
    apply Get_Put_same.
  - rewrite Get_Put_other by apply Vaccinations_Recovered.
    apply Get_Put_same.
  - apply Get_Put_same.
Qed.

(** Every other property is left as it was. *)
Lemma set_columns_other o country d k :
  ~ In k (column_keys country) ->
  Get (set_columns o country d) k = Get o k.
Proof.
  intros N. unfold set_columns, column_keys in *. cbn [In] in N.
  rewrite !Get_Put_other; [reflexivity| | |]; intros ->; tauto.
Qed.

(** ** The dates of the rows *)

Lemma assign_found_Some data c compD data' :
  assign_found data c compD = Some data' ->
  row_dates data' = row_dates data
  /\ In (AlignedRecord.date compD) (row_dates data).
Proof.
  revert data'. induction data as [|d data IH]; intros data' H;
    cbn [assign_found] in H; [discriminate H|].
  destruct (String.eqb (ChartRow.date d) (AlignedRecord.date compD)) eqn:E.
  - injection H as <-. apply String.eqb_eq in E. split; [reflexivity|].
    left. exact E.
  - destruct (assign_found data c compD) as [data0|]; [|discriminate H].
    injection H as <-. destruct (IH data0 eq_refl) as [I1 I2].
    cbn [row_dates map] in *. split; [f_equal; exact I1 | right; exact I2].
Qed.

Lemma assign_found_None data c compD :
  assign_found data c compD = None ->
  ~ In (AlignedRecord.date compD) (row_dates data).
Proof.
  induction data as [|d data IH]; intros H; cbn [assign_found] in H;
    [intros []|].
  destruct (String.eqb (ChartRow.date d) (AlignedRecord.date compD)) eqn:E;
    [discriminate H|].
  destruct (assign_found data c compD) as [data0|]; [discriminate H|].
  apply String.eqb_neq in E. intros [I | I]; [exact (E I) | exact (IH eq_refl I)].
Qed.

(** A record of the compared country adds its date to the rows, unless
    a row has that date. *)
Lemma merge_compared_dates c data compD :
  row_dates (merge_compared c data compD)
  = if existsb (String.eqb (AlignedRecord.date compD)) (row_dates data)
    then row_dates data
    else (row_dates data ++ [AlignedRecord.date compD])%list.
Proof.
  unfold merge_compared.
  destruct (assign_found data c compD) as [data'|] eqn:E.
  - apply assign_found_Some in E. destruct E as [E1 E2].
    apply existsb_eqb_In in E2. rewrite E2. exact E1.
  - apply assign_found_None in E.
    destruct (existsb (String.eqb (AlignedRecord.date compD)) (row_dates data))
      eqn:X.
    + apply existsb_eqb_In in X. contradiction.
    + unfold row_dates. rewrite map_app. reflexivity.
Qed.

(** The dates of the rows grow as a Set does. *)
Lemma fold_merge_dates c compared data :
  row_dates (fold_left (merge_compared c) compared data)
  = fold_left Set_add (dates_of compared) (row_dates data).
Proof.
  revert data. induction compared as [|d compared IH]; intros data;
    [reflexivity|].
  cbn [fold_left dates_of map]. rewrite IH, merge_compared_dates.
  reflexivity.
Qed.

(** ** The record of a series at a date *)

Lemma record_at_None l k : ~ In k (dates_of l) -> record_at l k = None.
Proof.
  induction l as [|d l IH]; intros H; [reflexivity|].
  cbn [record_at find dates_of map In] in *.
  destruct (String.eqb (AlignedRecord.date d) k) eqn:E.
  - apply String.eqb_eq in E. tauto.
  - apply IH. tauto.
Qed.

Lemma record_at_In l d :
  NoDup (dates_of l) -> In d l -> record_at l (AlignedRecord.date d) = Some d.
Proof.
  induction l as [|x l IH]; intros N H; [destruct H|].
  cbn [dates_of map] in N. inversion N as [|? ? N1 N2]; subst.
  cbn [record_at find].
  destruct (String.eqb (AlignedRecord.date x) (AlignedRecord.date d)) eqn:E.
  - destruct H as [-> | H]; [reflexivity|].
    apply String.eqb_eq in E. exfalso. apply N1. rewrite E.
    apply in_map. exact H.
  - destruct H as [-> | H]; [rewrite String.eqb_refl in E; discriminate E|].
    apply IH; assumption.
Qed.

Lemma record_at_app p q k :
  record_at (p ++ q) k
  = match record_at p k with
    | Some d => Some d
    | None => record_at q k
    end.
Proof.
  induction p as [|x p IH]; [reflexivity|].
  cbn [app record_at find].
  destruct (String.eqb (AlignedRecord.date x) k); [reflexivity | exact IH].
Qed.

(** A series with distinct dates, once one more record is counted in. *)
Lemma record_at_snoc p c k :
  ~ In (AlignedRecord.date c) (dates_of p) ->
  record_at (p ++ [c]) k
  = if String.eqb (AlignedRecord.date c) k then Some c else record_at p k.
Proof.
  intros N. rewrite record_at_app.
  change (record_at [c] k)
    with (if String.eqb (AlignedRecord.date c) k then Some c else None).
  destruct (String.eqb (AlignedRecord.date c) k) eqn:E.
  - apply String.eqb_eq in E. subst k. rewrite record_at_None by exact N.
    reflexivity.
  - destruct (record_at p k); reflexivity.
Qed.

(** ** The rows after one record of the compared country *)

Lemma assign_found_rows c data compD data' r' :
  NoDup (row_dates data) ->
  assign_found data c compD = Some data' ->
  In r' data' ->
  (In r' data /\ ChartRow.date r' <> AlignedRecord.date compD)
  \/ exists r,
      In r data /\ ChartRow.date r = AlignedRecord.date compD
      /\ r' = {| ChartRow.date := ChartRow.date r;
                 ChartRow.columns := set_columns (ChartRow.columns r) c compD |}.
Proof.
  revert data'. induction data as [|d data IH]; intros data' N H Hr;
    cbn [assign_found] in H; [discriminate H|].
  cbn [row_dates map] in N. inversion N as [|? ? N1 N2]; subst.
  destruct (String.eqb (ChartRow.date d) (AlignedRecord.date compD)) eqn:E.
  - injection H as <-. apply String.eqb_eq in E. destruct Hr as [<- | Hr].
    + right. exists d. repeat split; [left; reflexivity | exact E].
    + left. split; [right; exact Hr|]. intros X. apply N1.
      rewrite E, <- X. apply in_map with (f := ChartRow.date). exact Hr.
  - destruct (assign_found data c compD) as [data0|] eqn:F; [|discriminate H].
    injection H as <-. apply String.eqb_neq in E. destruct Hr as [<- | Hr].
    + left. split; [left; reflexivity | exact E].
    + destruct (IH data0 N2 eq_refl Hr) as [[I1 I2] | (r & I1 & I2 & I3)].
      * left. split; [right; exact I1 | exact I2].
      * right. exists r. repeat split; [right; exact I1 | exact I2 | exact I3].
Qed.

(** A row after [merge_compared] is a row as it was, of another date; or
    the row of the record's date, with the record's columns written into
    what that row held, which is nothing when the row is new. *)
Lemma merge_compared_rows c data compD r' :
  NoDup (row_dates data) ->
  In r' (merge_compared c data compD) ->
  (In r' data /\ ChartRow.date r' <> AlignedRecord.date compD)
  \/ exists o,
      r' = {| ChartRow.date := AlignedRecord.date compD;
              ChartRow.columns := set_columns o c compD |}
      /\ ((exists r, In r data /\ ChartRow.date r = AlignedRecord.date compD
                     /\ o = ChartRow.columns r)
          \/ (o = [] /\ ~ In (AlignedRecord.date compD) (row_dates data))).
Proof.
  intros N H. unfold merge_compared in H.
  destruct (assign_found data c compD) as [data'|] eqn:E.
  - destruct (assign_found_rows c data compD data' r' N E H)
      as [L | (r & I1 & I2 & ->)]; [left; exact L|].
    right. exists (ChartRow.columns r). rewrite I2. split; [reflexivity|].
    left. exists r. repeat split; assumption.
  - apply assign_found_None in E. apply in_app_iff in H.
    destruct H as [H | [<- | []]].
    + left. split; [exact H|]. intros X. apply E. rewrite <- X.
      apply in_map with (f := ChartRow.date). exact H.
    + right. exists []. split; [reflexivity|]. right. split; [reflexivity|exact E].
Qed.

Lemma merge_compared_NoDup c data compD :
  NoDup (row_dates data) -> NoDup (row_dates (merge_compared c data compD)).
Proof.
  intros N. rewrite merge_compared_dates.
  exact (Set_add_NoDup (row_dates data) (AlignedRecord.date compD) N).
Qed.

Lemma merge_compared_In c data compD k :
  In k (row_dates (merge_compared c data compD))
  <-> In k (row_dates data) \/ k = AlignedRecord.date compD.
Proof.
  rewrite merge_compared_dates.
  exact (Set_add_In (row_dates data) (AlignedRecord.date compD) k).
Qed.

Lemma column_values_own o c d :
  map (Get (set_columns o c d)) (column_keys c) = column_values (Some d).
Proof.
  destruct (set_columns_own o c d) as (H1 & H2 & H3).
  cbn [map column_keys column_values]. rewrite H1, H2, H3. reflexivity.
Qed.

Lemma column_values_other o c d c' :
  c' <> c ->
  map (Get (set_columns o c d)) (column_keys c') = map (Get o) (column_keys c').
Proof.
  intros N. apply map_ext_in. intros k Hk. apply set_columns_other.
  apply column_keys_disjoint with (a := c'); assumption.
Qed.

(** ** The rows after all records of the compared country *)

Section Merge.

Variables selectedCountry compareCountry : string.
Variable main : list AlignedRecord.t.
Hypothesis distinct : selectedCountry <> compareCountry.

(** What holds of the rows while the records of the compared country
    are merged in, [seen] being those merged so far. *)
Lemma fold_merge_rows compared seen data :
  NoDup (dates_of (seen ++ compared)) ->
  NoDup (row_dates data) ->
  (forall k, In k (dates_of main) \/ In k (dates_of seen) ->
             In k (row_dates data)) ->
  (forall row, In row data ->
     map (Get (ChartRow.columns row)) (column_keys selectedCountry)
     = column_values (record_at main (ChartRow.date row))
     /\ map (Get (ChartRow.columns row)) (column_keys compareCountry)
        = column_values (record_at seen (ChartRow.date row))) ->
  forall row, In row (fold_left (merge_compared compareCountry) compared data) ->
    map (Get (ChartRow.columns row)) (column_keys selectedCountry)
    = column_values (record_at main (ChartRow.date row))
    /\ map (Get (ChartRow.columns row)) (column_keys compareCountry)
       = column_values (record_at (seen ++ compared) (ChartRow.date row)).
Proof.
  revert seen data. induction compared as [|c compared IH];
    intros seen data N ND Sub Inv.
  - rewrite app_nil_r. exact Inv.
  - cbn [fold_left].
    replace (seen ++ c :: compared)%list with ((seen ++ [c]) ++ compared)%list
      in * by (rewrite <- app_assoc; reflexivity).
    assert (Nc : ~ In (AlignedRecord.date c) (dates_of seen)).
    { unfold dates_of in N. rewrite !map_app in N.
      apply NoDup_app_remove_r in N. apply NoDup_remove_2 in N.
      rewrite app_nil_r in N. exact N. }
    apply IH.
    + exact N.
    + apply merge_compared_NoDup, ND.
    + intros k Hk. apply merge_compared_In.
      unfold dates_of in Hk. rewrite map_app, in_app_iff in Hk.
      cbn [map In] in Hk. unfold dates_of in Sub.
      destruct Hk as [Hk | [Hk | [Hk | []]]]; auto.
    + intros row Hrow.
      rewrite record_at_snoc by exact Nc.
      destruct (merge_compared_rows _ _ _ _ ND Hrow)
        as [[I1 I2] | (o & -> & Ho)].
      * apply not_eq_sym, String.eqb_neq in I2. rewrite I2.
        apply Inv, I1.
      * cbn [ChartRow.date ChartRow.columns]. rewrite String.eqb_refl.
        split; [|apply column_values_own].
        rewrite column_values_other by exact distinct.
        destruct Ho as [(r & I1 & I2 & ->) | [-> Ho]].
        -- rewrite <- I2. apply Inv, I1.
        -- rewrite record_at_None; [reflexivity|].
           intros X. apply Ho, Sub. left. exact X.
Qed.

(** The rows the chart starts from. *)
Lemma new_rows row :
  NoDup (dates_of main) ->
  In row (map (new_row selectedCountry) main) ->
  map (Get (ChartRow.columns row)) (column_keys selectedCountry)
  = column_values (record_at main (ChartRow.date row))
  /\ map (Get (ChartRow.columns row)) (column_keys compareCountry)
     = column_values (record_at [] (ChartRow.date row)).
Proof.
  intros N H. apply in_map_iff in H. destruct H as (d & <- & Hd).
  cbn [new_row ChartRow.date ChartRow.columns]. split.
  - rewrite record_at_In by assumption. apply column_values_own.
  - rewrite column_values_other by (apply not_eq_sym; exact distinct).
    reflexivity.
Qed.

End Merge.

Lemma new_row_dates c l : row_dates (map (new_row c) l) = dates_of l.
Proof. unfold row_dates, dates_of. rewrite map_map. reflexivity. Qed.

Section Combined.

Variable host_parse : string -> option Z.

(** The rows of the chart before the final sort. *)
Lemma combined_perm main compared sel cmp :
  Permutation (combinedChartData host_parse (Some main) compared sel cmp)
    (fold_left (merge_compared cmp) (series_or_none compared)
       (map (new_row sel) main)).
Proof.
  unfold combinedChartData. destruct compared; apply Array_sort_perm.
Qed.

Lemma combined_row_dates main compared sel cmp :
  row_dates (combinedChartData host_parse (Some main) compared sel cmp)
  = Array_sort (compareDates host_parse)
      (fold_left Set_add (dates_of (series_or_none compared)) (dates_of main)).
Proof.
  unfold combinedChartData, row_dates, compareRows.
  rewrite (Array_sort_map ChartRow.date (compareDates host_parse)).
  f_equal. fold (row_dates (map (new_row sel) main)).
  destruct compared as [l|]; cbn [series_or_none].
  - fold (row_dates (fold_left (merge_compared cmp) l (map (new_row sel) main))).
    rewrite fold_merge_dates, new_row_dates. reflexivity.
  - apply new_row_dates.
Qed.

(** X8. The rows of the comparison chart have the dates of the two
    countries, each date once, when the dates of the selected country
    are distinct (as those of aligned records are). *)
Theorem combined_dates main compared sel cmp :
  NoDup (dates_of main) ->
  NoDup (row_dates (combinedChartData host_parse (Some main) compared sel cmp))
  /\ forall k,
      In k (row_dates
              (combinedChartData host_parse (Some main) compared sel cmp))
      <-> In k (dates_of main) \/ In k (dates_of (series_or_none compared)).
Proof.
  intros N. rewrite combined_row_dates. split.
  - eapply Permutation_NoDup; [apply Permutation_sym, Array_sort_perm|].
    apply fold_Set_add_NoDup, N.
  - intros k. rewrite <- fold_Set_add_In. split; apply Permutation_in.
    + apply Array_sort_perm.
    + apply Permutation_sym, Array_sort_perm.
Qed.

(** X9. The rows of the comparison chart are in the order of their
    dates, when the dates of both countries are valid. *)
Theorem combined_sorted main compared sel cmp :
  Forall (valid_date host_parse) (dates_of main) ->
  Forall (valid_date host_parse) (dates_of (series_or_none compared)) ->
  StronglySorted (date_le host_parse)
    (row_dates (combinedChartData host_parse (Some main) compared sel cmp)).
Proof.
  intros V1 V2. rewrite combined_row_dates. apply Array_sort_sorted.
  rewrite Forall_forall in *. intros k Hk. apply fold_Set_add_In in Hk.
  destruct Hk; auto.
Qed.

(** X10. In the comparison chart of two different countries, the row of
    a date holds, under the three columns of each country, the values
    of that country's record at the date, and nothing (undefined) when
    the country has no record there: neither country overwrites the
    other. *)
Theorem combined_columns main compared sel cmp row :
  sel <> cmp ->
  NoDup (dates_of main) ->
  NoDup (dates_of (series_or_none compared)) ->
  In row (combinedChartData host_parse (Some main) compared sel cmp) ->
  map (Get (ChartRow.columns row)) (column_keys sel)
  = column_values (record_at main (ChartRow.date row))
  /\ map (Get (ChartRow.columns row)) (column_keys cmp)
     = column_values (record_at (series_or_none compared) (ChartRow.date row)).
Proof.
  intros D N1 N2 H.
  apply (Permutation_in _ (combined_perm main compared sel cmp)) in H.
  apply (fold_merge_rows sel cmp main D (series_or_none compared) []
           (map (new_row sel) main)); trivial.
  - rewrite new_row_dates. exact N1.
  - rewrite new_row_dates. intros k [Hk | []]. exact Hk.
  - intros r Hr. apply new_rows; assumption.
Qed.

End Combined.

(* ================================================================== *)
(** * The forecast chart *)




Lemma historicalCases_length main :
  List.length (historicalCases main) = List.length main.
Proof. apply length_map. Qed.

Lemma historicalCases_dates main :
  map HistoryPoint.date (historicalCases main) = dates_of main.
Proof. unfold historicalCases. rewrite map_map. reflexivity. Qed.

Lemma chart_dates hd fc :
  map ChartPoint.date (map of_history hd ++ map of_forecast fc)
  = (map HistoryPoint.date hd ++ map ForecastRecord.date fc)%list.
Proof. rewrite map_app, !map_map. reflexivity. Qed.

(** ** Order *)

Lemma StronglySorted_app {A} (R : A -> A -> Prop) l1 l2 :
  StronglySorted R l1 -> StronglySorted R l2 ->
  (forall x y, In x l1 -> In y l2 -> R x y) ->
  StronglySorted R (l1 ++ l2).
Proof.
  induction 1 as [|x l1 HS IH F]; intros S2 C; [exact S2|].
  cbn [app]. constructor.
  - apply IH; [exact S2|]. intros a b Ha Hb. apply C; [right|]; assumption.
  - apply Forall_app. split; [exact F|].
    apply Forall_forall. intros y Hy. apply C; [left; reflexivity | exact Hy].
Qed.

(** In a sorted list every element is the last one or before it. *)
Lemma StronglySorted_last {A} (R : A -> A -> Prop) l z x :
  StronglySorted R l -> nth_error l (List.length l - 1) = Some z ->
  In x l -> x = z \/ R x z.
Proof.
  induction 1 as [|y l HS IH F]; intros Hz Hx; [destruct Hx|].
  destruct l as [|y' l'].
  - cbn in Hz. injection Hz as <-. destruct Hx as [<- | []]. left. reflexivity.
  - cbn [List.length] in Hz, IH.
    replace (S (S (List.length l')) - 1)%nat with (S (List.length l'))
      in Hz by lia.
    cbn [nth_error] in Hz.
    replace (S (List.length l') - 1)%nat with (List.length l') in IH by lia.
    destruct Hx as [<- | Hx].
    + right. rewrite Forall_forall in F. apply F.
      apply nth_error_In with (n := List.length l'). exact Hz.
    + apply IH; assumption.
Qed.

Section ForecastChart.

Variable LocalTZA : Z -> bool -> Z.
Variable host_parse : string -> option Z.

(** The dates of aligned series whose keys are all dates: in order. *)
Lemma aligned_sorted c r v :
  Forall (valid_date host_parse) (all_keys c r v) ->
  StronglySorted (date_le host_parse)
    (dates_of (processHistoricalData host_parse c r v)).
Proof.
  intros V. unfold dates_of. rewrite aligned_dates.
  apply new_Set_sorted, Array_sort_sorted, V.
Qed.

Lemma date_within_valid margin k :
  date_within host_parse margin k -> valid_date host_parse k.
Proof. intros (t & E & _). unfold valid_date. rewrite E. discriminate. Qed.

(** The last point of a history of aligned records, whose date is one
    of the keys. *)
Lemma last_of_history c r v :
  (10 <= List.length (processHistoricalData host_parse c r v))%nat ->
  exists last,
    nth_error (historicalCases (processHistoricalData host_parse c r v))
      (List.length (historicalCases (processHistoricalData host_parse c r v))
       - 1) = Some last
    /\ nth_error (dates_of (processHistoricalData host_parse c r v))
         (List.length (dates_of (processHistoricalData host_parse c r v)) - 1)
       = Some (HistoryPoint.date last)
    /\ In (HistoryPoint.date last) (all_keys c r v).
Proof.
  intros Hn. set (main := processHistoricalData host_parse c r v) in *.
  destruct (nth_error (historicalCases main)
              (List.length (historicalCases main) - 1)) as [last|] eqn:E.
  - exists last. split; [reflexivity|].
    assert (D : nth_error (dates_of main) (List.length (dates_of main) - 1)
                = Some (HistoryPoint.date last)).
    { rewrite <- historicalCases_dates, length_map.
      apply map_nth_error, E. }
    split; [exact D|].
    apply (aligned_date_In host_parse c r v).
    apply nth_error_In in D. exact D.
  - apply nth_error_None in E. rewrite historicalCases_length in E. lia.
Qed.

(** The forecast of aligned series whose keys are dates well inside the
    range of time values. *)
Lemma forecast_of_aligned c r v :
  plausible_zone LocalTZA ->
  Forall (date_within host_parse 16) (all_keys c r v) ->
  (10 <= List.length (processHistoricalData host_parse c r v))%nat ->
  exists last t0,
    nth_error (dates_of (processHistoricalData host_parse c r v))
      (List.length (dates_of (processHistoricalData host_parse c r v)) - 1)
    = Some last
    /\ new_Date host_parse last = Some t0
    /\ Z.abs t0 + 16 * msPerDay <= maxTime
    /\ forecastData LocalTZA host_parse
         (Some (historicalCases (processHistoricalData host_parse c r v))) 14
       = Normal (map (forecastRecord LocalTZA
                        (historicalCases
                           (processHistoricalData host_parse c r v)) t0)
                     (counters 14)).
Proof.
  intros PZ W Hn. destruct (last_of_history c r v Hn) as (last & E & D & K).
  rewrite Forall_forall in W. destruct (W _ K) as (t0 & T & R).
  exists (HistoryPoint.date last), t0. repeat split; trivial.
  apply forecastData_Normal with (last := last); trivial.
  - rewrite historicalCases_length. exact Hn.
  - intros i Hi. apply shifted_range with (h := 14); trivial.
Qed.


(** X12. From the series to the forecast chart nothing is thrown: for
    series whose keys are all dates, 16 days or more inside the range
    of time values, on a host whose offset stays within a day, the
    chart has the aligned records and, from ten of them on, 14 points
    more. *)
Theorem forecast_chart_returns c r v :
  plausible_zone LocalTZA ->
  Forall (date_within host_parse 16) (all_keys c r v) ->
  exists pts,
    forecastChartData LocalTZA host_parse
      (Some (processHistoricalData host_parse c r v)) = Normal pts
    /\ List.length pts
       = (List.length (processHistoricalData host_parse c r v)
          + if (List.length (processHistoricalData host_parse c r v) <? 10)%nat
            then 0 else 14)%nat.
Proof.
  intros PZ W. unfold forecastChartData.
  destruct (Nat.ltb_spec
              (List.length (processHistoricalData host_parse c r v)) 10)
    as [Hn | Hn].
  - unfold forecastData. rewrite historicalCases_length.
    apply Nat.ltb_lt in Hn. rewrite Hn. eexists. split; [reflexivity|].
    rewrite length_app, length_map, historicalCases_length. reflexivity.
  - destruct (forecast_of_aligned c r v PZ W Hn) as (last & t0 & _ & _ & _ & ->).
    eexists. split; [reflexivity|].
    unfold counters.
    rewrite length_app, !length_map, historicalCases_length, length_seq.
    reflexivity.
Qed.

End ForecastChart.

Section ForecastChartOrder.

Variable host_parse : string -> option Z.

(** A forecast date of a host at a fixed offset is after every date
    that is not after the last date. *)
Lemma forecast_date_after off t0 i k tk :
  new_Date host_parse k = Some tk -> tk <= t0 -> 1 <= i <= 14 ->
  Z.abs t0 + 16 * msPerDay <= maxTime ->
  date_le host_parse k (ISO_date (shifted (fixed_offset off) t0 i)).
Proof.
  intros K L Hi R. rewrite shifted_fixed_offset.
  exists tk, (Day (t0 + i * msPerDay) * msPerDay). split; [exact K|]. split.
  - apply new_Date_ISO_date. unfold msPerDay in *. lia.
  - unfold Day, msPerDay. rewrite Z.div_add by lia.
    pose proof (Z.div_mod t0 86400000 ltac:(lia)).
    pose proof (Z.mod_pos_bound t0 86400000 ltac:(lia)). nia.
Qed.

(** X13. On a host whose offset never changes the points of the
    forecast chart are in the order of their dates, the forecast after
    the history, for series whose keys are all dates well inside the
    range. *)
Theorem forecast_chart_sorted off c r v pts :
  Z.abs off <= msPerDay ->
  Forall (date_within host_parse 16) (all_keys c r v) ->
  forecastChartData (fixed_offset off) host_parse
    (Some (processHistoricalData host_parse c r v)) = Normal pts ->
  StronglySorted (date_le host_parse) (map ChartPoint.date pts).
Proof.
  intros O W E.
  assert (V : Forall (valid_date host_parse) (all_keys c r v)).
  { eapply Forall_impl; [|exact W]. intros k. apply date_within_valid. }
  pose proof (aligned_sorted host_parse c r v V) as SH.
  unfold forecastChartData in E.
  destruct (Nat.ltb_spec
              (List.length (processHistoricalData host_parse c r v)) 10)
    as [Hn | Hn].
  - unfold forecastData in E. rewrite historicalCases_length in E.
    apply Nat.ltb_lt in Hn. rewrite Hn in E. injection E as <-.
    change (@nil ChartPoint.t) with (map of_forecast []).
    rewrite chart_dates, historicalCases_dates, app_nil_r. exact SH.
  - destruct (forecast_of_aligned (fixed_offset off) host_parse c r v
                (plausible_fixed_offset off O) W Hn)
      as (last & t0 & D & T & R & F).
    rewrite F in E.
    match type of E with
    | Normal ?x = _ => assert (P : pts = x) by congruence; rewrite P
    end.
    rewrite chart_dates, historicalCases_dates.
    apply StronglySorted_app; [exact SH | |].
    + apply forecast_dates_sorted; [apply plausible_fixed_offset, O|].
      unfold msPerDay in *. lia.
    + intros k f Hk Hf.
      rewrite map_map in Hf. apply in_map_iff in Hf.
      destruct Hf as (i & <- & Hi). unfold counters in Hi.
      apply in_map_iff in Hi. destruct Hi as (j & <- & Hj).
      apply in_seq in Hj. cbn [forecastRecord ForecastRecord.date].
      assert (Kk : In k (all_keys c r v)).
      { apply (aligned_date_In host_parse c r v). exact Hk. }
      rewrite Forall_forall in W. destruct (W k Kk) as (tk & Tk & _).
      apply forecast_date_after with (tk := tk); trivial; [|lia].
      destruct (StronglySorted_last _ _ _ _ SH D Hk)
        as [-> | (a & b & A & B & L)].
      * rewrite T in Tk. injection Tk as <-. lia.
      * rewrite A in Tk. rewrite B in T. injection Tk as <-.
        injection T as <-. exact L.
Qed.

End ForecastChartOrder.

(* ================================================================== *)
(** * The ticks of the date axis *)

Section Ticks.

Variable host_parse : string -> option Z.

(** The label of a valid date: the month and the day of the month of
    its local time. *)
Lemma tickFormatter_valid LocalTZA tick t y m d :
  new_Date host_parse tick = Some t ->
  civil_of_time (LocalTime LocalTZA t) = (y, m, d) ->
  tickFormatter LocalTZA host_parse tick = month_slash_day m d.
Proof.
  intros T C. unfold tickFormatter, month_slash_day. rewrite T.
  cbn [getMonth getDate option_map].
  unfold civil_of_time in C. injection C as _ <- <-. reflexivity.
Qed.

(** The calendar date of a time between the midnights of two days. *)
Lemma civil_of_time_within y m d s :
  civil_valid (y, m, d) ->
  MakeDay y (m - 1) d * msPerDay <= s < (MakeDay y (m - 1) d + 1) * msPerDay ->
  civil_of_time s = (y, m, d).
Proof.
  intros V B. apply civil_of_time_unique; [exact V|].
  unfold Day, msPerDay in *. symmetry. apply Z.div_unique_pos
    with (r := s - MakeDay y (m - 1) d * 86400000); lia.
Qed.

(** X14. On a host at or ahead of UTC by less than a day, the tick of
    an ISO calendar date is labelled with the month and the day of that
    date. *)
Theorem tick_label_east off y m d :
  0 <= off < msPerDay ->
  civil_valid (y, m, d) ->
  Z.abs (MakeDay y (m - 1) d * msPerDay) <= maxTime ->
  tickFormatter (fixed_offset off) host_parse (civil_string (y, m, d))
  = month_slash_day m d.
Proof.
  intros O V R. destruct (new_Date_civil_string host_parse y m d V R) as [T _].
  apply tickFormatter_valid with (t := MakeDay y (m - 1) d * msPerDay) (y := y);
    [exact T|].
  apply civil_of_time_within; [exact V|].
  unfold LocalTime, fixed_offset, msPerDay in *. lia.
Qed.

(** X15. On a host behind UTC the tick of an ISO calendar date is
    labelled with the month and the day of the day before: the string
    is read as midnight UTC, the label is taken in local time. *)
Theorem tick_label_west off y m d :
  - msPerDay <= off < 0 ->
  civil_valid (y, m, d) ->
  Z.abs ((MakeDay y (m - 1) d + 1) * msPerDay) <= maxTime ->
  tickFormatter (fixed_offset off) host_parse
    (civil_string (tomorrow (y, m, d)))
  = month_slash_day m d.
Proof.
  intros O V R. destruct (MakeDay_tomorrow y m d V) as [V' M'].
  destruct (tomorrow (y, m, d)) as [[y' m'] d'].
  rewrite <- M' in R.
  destruct (new_Date_civil_string host_parse y' m' d' V' R) as [T _].
  apply tickFormatter_valid
    with (t := MakeDay y' (m' - 1) d' * msPerDay) (y := y); [exact T|].
  apply civil_of_time_within; [exact V|]. rewrite M'.
  unfold LocalTime, fixed_offset, msPerDay in *. lia.
Qed.

End Ticks.

(* ================================================================== *)
(** * The loader *)

(** The timeline of a response is there unless the response is [ok]
    and its body cannot be read. *)
Lemma timeline_of_Fulfilled {Body T} (timeline : Body -> option T) response :
  (exists tl, timeline_of timeline response = Fulfilled tl)
  <-> (Response.ok response = true ->
       exists body, Response.json response = Fulfilled body).
Proof.
  unfold timeline_of, await. destruct (Response.ok response).
  - destruct (Response.json response) as [body|r].
    + split; [intros _ _; exists body; reflexivity|].
      intros _. eexists. reflexivity.
    + split; [intros [tl H]; discriminate H|].
      intros H. destruct (H eq_refl) as [body H']. discriminate H'.
  - split; [intros _ H; discriminate H|]. intros _. eexists. reflexivity.
Qed.

(** The vaccine values of the records are those of the vaccine
    series. *)
Lemma aligned_vaccines host_parse c r v row :
  In row (processHistoricalData host_parse c r v) ->
  AlignedRecord.vaccines row
  = match v with
    | Some o => or_number (Get o (AlignedRecord.date row)) zero
    | None => zero
    end.
Proof.
  unfold processHistoricalData. intros H. apply in_map_iff in H.
  destruct H as (k & <- & _). reflexivity.
Qed.

(** An object holds a value under each of its keys. *)
Lemma Get_key o k : In k (Object_keys o) -> Get o k <> None.
Proof.
  induction o as [|[k0 x0] o IH]; intros H; [destruct H|].
  cbn [Get]. destruct (String.eqb k k0) eqn:E; [discriminate|].
  destruct H as [H | H]; [|exact (IH H)].
  cbn [fst] in H. subst k0. rewrite String.eqb_refl in E. discriminate E.
Qed.

Lemma or_number_zero x :
  or_number (Some x) zero = if ordinary x then x else zero.
Proof. destruct x as [[|]|[|]| |[|] m e]; reflexivity. Qed.

(** The total of a vaccine series and the chart of three series of
    which it is the third. *)
Lemma total_and_chart host_parse c r v :
  total_on_chart v (totalVaccinatedCount v)
    (processHistoricalData host_parse c r v).
Proof.
  unfold total_on_chart. destruct v as [o|].
  - destruct (last_key o) as [k|] eqn:K; unfold last_key in K.
    + assert (Hk : In k (Object_keys o)) by (eapply nth_error_In; exact K).
      assert (Hd : In k (map AlignedRecord.date
                           (processHistoricalData host_parse c r (Some o)))).
      { apply aligned_date_In. unfold all_keys. rewrite !in_app_iff.
        right. right. exact Hk. }
      apply in_map_iff in Hd. destruct Hd as (row & Hrow & Hin).
      destruct (Get o k) as [x|] eqn:G; [|destruct (Get_key o k Hk G)].
      exists x, row. repeat split; trivial.
      * unfold totalVaccinatedCount. rewrite K, G.
        destruct (Object_keys o); [destruct Hk | reflexivity].
      * rewrite (aligned_vaccines _ _ _ _ _ Hin), Hrow, G.
        apply or_number_zero.
    + apply nth_error_None in K.
      assert (O : o = []).
      { destruct o; [reflexivity|]. cbn [Object_keys map List.length] in K.
        lia. }
      subst o. split; [reflexivity|]. intros row Hrow _.
      rewrite (aligned_vaccines _ _ _ _ _ Hrow). reflexivity.
  - split; [reflexivity|]. intros row Hrow.
    rewrite (aligned_vaccines _ _ _ _ _ Hrow). reflexivity.
Qed.

Section LoaderOutcomes.

Variable host_parse : string -> option Z.
Variable Value : Type.
Variable fetch_country :
  string -> Promise (Response.t (option (string -> Value))).
Variable fetch_historical :
  string -> Promise (Response.t (option HistoricalBody.t)).
Variable fetch_vaccine :
  string -> Promise (Response.t (option VaccineBody.t)).

(** What a call that is fulfilled returns: the chart of the series
    that came, the third being the timeline of the vaccine response, and
    the total of that timeline. *)
Lemma fetchDataForCountry_Fulfilled countryName result :
  fetchDataForCountry host_parse Value fetch_country fetch_historical
    fetch_vaccine countryName = Fulfilled result ->
  exists c r vaccineResponse v,
    fetch_vaccine (vaccine_url countryName) = Fulfilled vaccineResponse
    /\ timeline_of VaccineBody.timeline vaccineResponse = Fulfilled v
    /\ CountryData.historicalChartData result
       = processHistoricalData host_parse c r v
    /\ CountryData.totalVaccinated result = totalVaccinatedCount v.
Proof.
  unfold fetchDataForCountry, await. intros H.
  destruct (fetch_country _) as [cr|]; [|discriminate H].
  destruct (negb (Response.ok cr)).
  { destruct (Response.status cr =? 404); discriminate H. }
  destruct (Response.json cr) as [data|]; [|discriminate H].
  destruct (fetch_historical _) as [hr|]; [|discriminate H].
  destruct (timeline_of HistoricalBody.timeline hr) as [tl|]; [|discriminate H].
  destruct (fetch_vaccine _) as [vr|]; [|discriminate H].
  destruct (timeline_of VaccineBody.timeline vr) as [v|] eqn:V;
    [|discriminate H].
  destruct data as [data|]; [|discriminate H].
  injection H as <-. do 2 eexists. exists vr, v.
  split; [reflexivity|]. split; [exact V|]. split; reflexivity.
Qed.

(** X16. When the loader is fulfilled: exactly when the three requests
    are answered, the country's answer is [ok] with an object as its
    body, and the bodies of the two other answers can be read when
    these are [ok].  An HTTP error of the history or of the vaccine
    coverage does not make the call fail. *)
Theorem loader_fulfils_iff countryName :
  (exists result,
     fetchDataForCountry host_parse Value fetch_country fetch_historical
       fetch_vaccine countryName = Fulfilled result)
  <-> exists cr data hr vr,
      fetch_country (country_url countryName) = Fulfilled cr
      /\ Response.ok cr = true
      /\ Response.json cr = Fulfilled (Some data)
      /\ fetch_historical (historical_url countryName) = Fulfilled hr
      /\ (Response.ok hr = true ->
          exists body, Response.json hr = Fulfilled body)
      /\ fetch_vaccine (vaccine_url countryName) = Fulfilled vr
      /\ (Response.ok vr = true ->
          exists body, Response.json vr = Fulfilled body).
Proof.
  unfold fetchDataForCountry, await. split.
  - intros [result H].
    destruct (fetch_country _) as [cr|]; [|discriminate H].
    destruct (Response.ok cr) eqn:Ok; cbn [negb] in H;
      [|destruct (Response.status cr =? 404); discriminate H].
    destruct (Response.json cr) as [data|] eqn:J; [|discriminate H].
    destruct (fetch_historical _) as [hr|]; [|discriminate H].
    destruct (timeline_of HistoricalBody.timeline hr) as [tl|] eqn:T;
      [|discriminate H].
    destruct (fetch_vaccine _) as [vr|]; [|discriminate H].
    destruct (timeline_of VaccineBody.timeline vr) as [v|] eqn:V;
      [|discriminate H].
    destruct data as [data|]; [|discriminate H].
    exists cr, data, hr, vr. repeat split; trivial.
    + apply (timeline_of_Fulfilled HistoricalBody.timeline). eexists. exact T.
    + apply (timeline_of_Fulfilled VaccineBody.timeline). eexists. exact V.
  - intros (cr & data & hr & vr & -> & Ok & J & -> & Jh & -> & Jv).
    rewrite Ok, J. cbn [negb].
    apply (timeline_of_Fulfilled HistoricalBody.timeline) in Jh.
    apply (timeline_of_Fulfilled VaccineBody.timeline) in Jv.
    destruct Jh as [tl ->]. destruct Jv as [v ->]. eexists. reflexivity.
Qed.

(** X17. The total of vaccinations that the loader returns agrees with
    its chart and with the answer of the vaccine request.  If that
    answer is not [ok], the total is 0 and no record of the chart has a
    vaccination value.  If it is [ok], its body holds the vaccine series:
    without a series, or with a series that has no key, the same holds;
    and otherwise the total is the value [x] of the series at the last
    of its keys, and the record of the chart at that date has [x] as its
    vaccination value ([+0] if [x] is NaN or [-0]). *)
Theorem total_vaccinated_charted countryName result vaccineResponse :
  fetchDataForCountry host_parse Value fetch_country fetch_historical
    fetch_vaccine countryName = Fulfilled result ->
  fetch_vaccine (vaccine_url countryName) = Fulfilled vaccineResponse ->
  (Response.ok vaccineResponse = false ->
   total_on_chart None (CountryData.totalVaccinated result)
     (CountryData.historicalChartData result))
  /\ (forall vacData,
        Response.ok vaccineResponse = true ->
        Response.json vaccineResponse = Fulfilled vacData ->
        total_on_chart (timeline_in vacData)
          (CountryData.totalVaccinated result)
          (CountryData.historicalChartData result)).
Proof.
  intros H F. apply fetchDataForCountry_Fulfilled in H.
  destruct H as (c & r & vr & v & F' & T & -> & ->).
  rewrite F in F'. injection F' as <-. unfold timeline_of, await in T.
  split.
  - intros Ok. rewrite Ok in T. injection T as <-. apply total_and_chart.
  - intros vacData Ok J. rewrite Ok, J in T. injection T as <-.
    apply total_and_chart.
Qed.

End LoaderOutcomes.

(* ================================================================== *)
(** * The further properties on sample inputs *)

Lemma align_fields_ordinary_witness :
  ordinary (of_Z 5) = true /\ ordinary zero = true /\ ordinary zero = true.
Proof.
  apply (align_fields_ordinary ISO_only (Some sample_cases) None
           (Some sample_vaccines)
           (AlignedRecord.mk "2021-01-02" (of_Z 5) zero zero)).
  vm_compute. right. left. reflexivity.
Defined.

Lemma align_order_independent_witness :
  processHistoricalData ISO_only (Some sample_cases) None
    (Some sample_vaccines)
  = processHistoricalData ISO_only (Some sample_cases_reordered) None
      (Some sample_vaccines).
Proof.
  apply align_order_independent.
  - repeat constructor; vm_compute; discriminate.
  - intros a b Ha Hb. cbn in Ha, Hb.
    repeat match goal with
           | H : _ \/ _ |- _ => destruct H as [H | H]
           | H : False |- _ => destruct H
           end; subst a b; vm_compute; intros H;
      first [reflexivity | discriminate H].
  - intros k. cbn. tauto.
  - intros k. repeat split. unfold field_at, sample_cases, sample_cases_reordered.
    cbn [Get].
    destruct (String.eqb_spec k "2021-01-02") as [-> | N1]; [reflexivity|].
    destruct (String.eqb_spec k "+010000-01-01") as [-> | N2]; [reflexivity|].
    destruct (String.eqb_spec k "2021-01-01") as [-> | N3]; reflexivity.
Defined.

Lemma forecast_invalid_last_date_witness :
  (1 <= 14 ->
   forecastData (fixed_offset 0) ISO_only (Some history_without_end) 14
   = Throw RangeError)
  /\ (14 <= 0 ->
      forecastData (fixed_offset 0) ISO_only (Some history_without_end) 14
      = Normal []).
Proof.
  apply (forecast_invalid_last_date (fixed_offset 0) ISO_only
           history_without_end (HistoryPoint.mk "tomorrow" (of_Z 190)) 14).
  - simpl. lia.
  - reflexivity.
  - reflexivity.
Defined.

Lemma forecast_dates_read_back_witness :
  exists day,
    parse_iso_date "2021-01-31" = Some (day * msPerDay)
    /\ new_Date ISO_only "2021-01-31" = Some (day * msPerDay).
Proof.
  apply (forecast_dates_read_back (fixed_offset 0) ISO_only
           (Some linear_history) 3 january_forecast
           (ForecastRecord.mk "2021-01-31" (of_Z 200) true) ISO_only).
  - vm_compute. reflexivity.
  - left. reflexivity.
Defined.

Lemma forecast_values_ignore_dates_witness :
  map ForecastRecord.cases january_forecast
  = map ForecastRecord.cases march_forecast.
Proof.
  apply (forecast_values_ignore_dates (fixed_offset 0) us_eastern_2021
           ISO_only ISO_only linear_history history_to_13_march 3).
  - reflexivity.
  - vm_compute. reflexivity.
  - vm_compute. reflexivity.
Defined.

Lemma forecast_dates_after_last_witness :
  exists l,
    forecastData (fixed_offset 19800000) ISO_only (Some linear_history) 3
    = Normal l
    /\ map ForecastRecord.date l
       = map (fun k => civil_string (Nat.iter k tomorrow (2021, 1, 30)))
             (seq 1 (Z.to_nat 3)).
Proof.
  apply (forecast_dates_after_last ISO_only 19800000 linear_history
           (HistoryPoint.mk "2021-01-30" (of_Z 190)) 2021 1 30 3).
  - unfold msPerDay. lia.
  - simpl. lia.
  - reflexivity.
  - reflexivity.
  - vm_compute. repeat split; discriminate.
  - vm_compute. discriminate.
  - lia.
Defined.

Lemma sample_main_NoDup : NoDup (dates_of sample_main).
Proof.
  unfold dates_of, sample_main. rewrite aligned_dates. apply new_Set_NoDup.
Qed.

Lemma sample_compared_NoDup : NoDup (dates_of sample_compared).
Proof.
  unfold dates_of, sample_compared. rewrite aligned_dates. apply new_Set_NoDup.
Qed.

Lemma combined_dates_witness :
  NoDup (row_dates (combinedChartData ISO_only (Some sample_main)
                      (Some sample_compared) "India" "Italy"))
  /\ forall k,
      In k (row_dates (combinedChartData ISO_only (Some sample_main)
                         (Some sample_compared) "India" "Italy"))
      <-> In k (dates_of sample_main)
          \/ In k (dates_of (series_or_none (Some sample_compared))).
Proof. apply combined_dates. exact sample_main_NoDup. Defined.

Lemma combined_sorted_witness :
  StronglySorted (date_le ISO_only)
    (row_dates (combinedChartData ISO_only (Some sample_main)
                  (Some sample_compared) "India" "Italy")).
Proof.
  apply combined_sorted.
  - repeat constructor; vm_compute; discriminate.
  - repeat constructor; vm_compute; discriminate.
Defined.

Lemma combined_columns_witness :
  map (Get (ChartRow.columns sample_row)) (column_keys "India")
  = column_values (record_at sample_main (ChartRow.date sample_row))
  /\ map (Get (ChartRow.columns sample_row)) (column_keys "Italy")
     = column_values
         (record_at (series_or_none (Some sample_compared))
                    (ChartRow.date sample_row)).
Proof.
  apply (combined_columns ISO_only sample_main (Some sample_compared)
           "India" "Italy" sample_row).
  - discriminate.
  - exact sample_main_NoDup.
  - exact sample_compared_NoDup.
  - vm_compute. right. right. left. reflexivity.
Defined.

Lemma us_eastern_plausible : plausible_zone us_eastern_2021.
Proof.
  split; intros; unfold us_eastern_2021, msPerDay;
    repeat match goal with
           | |- context [if ?c then _ else _] => destruct c
           end; lia.
Qed.

Lemma march_cases_within :
  Forall (date_within ISO_only 16) (all_keys (Some march_cases) None None).
Proof.
  repeat constructor; eexists;
    (split; [vm_compute; reflexivity | vm_compute; discriminate]).
Qed.

Lemma forecast_chart_returns_witness :
  exists pts,
    forecastChartData us_eastern_2021 ISO_only
      (Some (processHistoricalData ISO_only (Some march_cases) None None))
    = Normal pts
    /\ List.length pts
       = (List.length
            (processHistoricalData ISO_only (Some march_cases) None None)
          + if (List.length
                  (processHistoricalData ISO_only (Some march_cases) None None)
                <? 10)%nat
            then 0 else 14)%nat.
Proof.
  apply forecast_chart_returns.
  - exact us_eastern_plausible.
  - exact march_cases_within.
Defined.

Lemma forecast_chart_sorted_witness :
  StronglySorted (date_le ISO_only) (map ChartPoint.date march_chart).
Proof.
  apply (forecast_chart_sorted ISO_only 0 (Some march_cases) None None).
  - unfold msPerDay. lia.
  - exact march_cases_within.
  - vm_compute. reflexivity.
Defined.

Lemma tick_label_east_witness :
  tickFormatter (fixed_offset 19800000) ISO_only (civil_string (2021, 3, 14))
  = month_slash_day 3 14.
Proof.
  apply tick_label_east.
  - unfold msPerDay. lia.
  - vm_compute. repeat split; discriminate.
  - vm_compute. discriminate.
Defined.

Lemma tick_label_west_witness :
  tickFormatter (fixed_offset (-18000000)) ISO_only
    (civil_string (tomorrow (2021, 2, 28)))
  = month_slash_day 2 28.
Proof.
  apply tick_label_west.
  - unfold msPerDay. lia.
  - vm_compute. repeat split; discriminate.
  - vm_compute. discriminate.
Defined.

Lemma total_vaccinated_charted_witness :
  (Response.ok sample_vaccine_response = false ->
   total_on_chart None (CountryData.totalVaccinated sample_loaded)
     (CountryData.historicalChartData sample_loaded))
  /\ (forall vacData,
        Response.ok sample_vaccine_response = true ->
        Response.json sample_vaccine_response = Fulfilled vacData ->
        total_on_chart (timeline_in vacData)
          (CountryData.totalVaccinated sample_loaded)
          (CountryData.historicalChartData sample_loaded)).
Proof.
  apply (total_vaccinated_charted ISO_only number
           (fun _ => sample_country) (fun _ => sample_historical)
           (fun _ => sample_vaccine) "India" sample_loaded
           sample_vaccine_response).
  - reflexivity.
  - reflexivity.
Defined.
